(** * Client-side orchestration of the textbook library and chat front end

    A shallow embedding of the event handlers of the React pages
    [FE/src/pages/Home.jsx] and [FE/src/pages/Chat.jsx], together with the
    request wrappers of [FE/src/api/pdf.js], [FE/src/api/embedding.js] and
    [FE/src/api/agent.js].

    An [async] handler is a computation over the component's state
    variables and the backend; it may complete normally or throw, and it
    leaves a chronological list of the effects it performed (dialogs,
    console output, requests sent and settled). *)

From Stdlib Require Import String Ascii List Bool NArith Lia.
From ExtLib Require Import Structures.Monad Structures.MonadExc.
Import ListNotations.
Import MonadNotation.
Local Open Scope string_scope.
Local Open Scope monad_scope.

Set Implicit Arguments.

(* ===================================================================== *)
(** ** JavaScript strings *)
(* ===================================================================== *)

(** A string is a sequence of code units; [ascii] carries the code units
    below 256. *)
Module Js.

(** [!s] is true exactly for the empty string. *)
Definition truthy (s : string) : bool :=
  match s with
  | EmptyString => false
  | String _ _ => true
  end.

(** WhiteSpace and LineTerminator code units (ECMA-262, 12.2 and 12.3)
    in the range carried by [ascii]: TAB, LF, VT, FF, CR, SP, NBSP. *)
Definition isWhiteSpace (c : ascii) : bool :=
  match nat_of_ascii c with
  | 9 | 10 | 11 | 12 | 13 | 32 | 160 => true
  | _ => false
  end.

Fixpoint trimStart (s : string) : string :=
  match s with
  | EmptyString => EmptyString
  | String c s' => if isWhiteSpace c then trimStart s' else s
  end.

Fixpoint trimEnd (s : string) : string :=
  match s with
  | EmptyString => EmptyString
  | String c s' =>
      match trimEnd s' with
      | EmptyString => if isWhiteSpace c then EmptyString else String c EmptyString
      | r => String c r
      end
  end.

(** [String.prototype.trim]. *)
Definition trim (s : string) : string := trimEnd (trimStart s).

Fixpoint drop (n : nat) (s : string) : string :=
  match n, s with
  | O, _ => s
  | S _, EmptyString => EmptyString
  | S n', String _ s' => drop n' s'
  end.

(** [String.prototype.replace] with a string pattern: only the first
    occurrence of [pat] is replaced.  ([rep] carries no [$] pattern in
    the code modelled here.) *)
Fixpoint replace (pat rep s : string) : string :=
  if prefix pat s then rep ++ drop (String.length pat) s
  else match s with
       | EmptyString => EmptyString
       | String c s' => String c (replace pat rep s')
       end.

(** The double-quote character of the template literals. *)
Definition dquote : string := String (ascii_of_nat 34) EmptyString.

End Js.

(* ===================================================================== *)
(** ** Data exchanged with the backend *)
(* ===================================================================== *)

(** A browser [File]: the handlers read [name]; [size] is in bytes. *)
Record File := { name : string; size : N }.

(** The value caught by [catch (error)], as far as the handlers look into
    it: they read [error.message] and pass the value on to the console. *)
Record JsError := { message : string }.

(** An entry of [data.collections]. *)
Record Collection := {
  col_name : string;
  total_chapters : nat;
  total_images : nat
}.

(** Evidence objects are passed through uninterpreted (their JSON text). *)
Definition Artifact := string.

(** What the HTTP client is asked to send.  The requests with a fixed
    URL are named after it and carry the fields of their body as they
    are.  A [DELETE] carries the URL the wrapper builds, since the
    wrappers paste their arguments into its path, and the [params] given
    beside it. *)
Inductive Request :=
| PostPdfUpload (file : File) (user_id : string)
| PostIndexBook (book_name user_id : string) (force_reindex : bool)
| GetCollections
| PostAgentChat (user_id session_id query : string) (db_name : option string)
| Delete (url : string) (params : list (string * string)).

(** [client.delete(`/embedding/collection/${collectionName}`)]: the name
    is pasted into the path as it is, without encoding. *)
Definition DeleteCollection (collection : string) : Request :=
  Delete ("/embedding/collection/" ++ collection) [].

(** [client.delete(`/pdf/delete/${bookName}`, { params: { user_id: userId } })]:
    the name is pasted into the path as it is, without encoding. *)
Definition DeletePdf (book_name user_id : string) : Request :=
  Delete ("/pdf/delete/" ++ book_name) [("user_id", user_id)].

(** [client.delete(`/agent/session/${userId}/${sessionId}`)] *)
Definition DeleteAgentSession (user_id session_id : string) : Request :=
  Delete ("/agent/session/" ++ user_id ++ "/" ++ session_id) [].

Arguments DeleteCollection collection : simpl never.
Arguments DeletePdf book_name user_id : simpl never.
Arguments DeleteAgentSession user_id session_id : simpl never.

(** [response.data].  A field the body does not carry reads as
    [undefined], here [None]. *)
Inductive Data :=
| Ack
| CollectionsBody (total : nat) (collections : option (list Collection))
| ChatBody (response : option string) (artifacts : option (list Artifact)).

Definition data_collections (d : Data) : option (list Collection) :=
  match d with
  | CollectionsBody _ cs => cs
  | _ => None
  end.

Definition data_response (d : Data) : option string :=
  match d with
  | ChatBody r _ => r
  | _ => None
  end.

Definition data_artifacts (d : Data) : option (list Artifact) :=
  match d with
  | ChatBody _ a => a
  | _ => None
  end.

(** How the promise returned by the HTTP client settles. *)
Inductive Outcome :=
| Resolved (data : Data)
| Rejected (error : JsError).

(** Effects of a handler that are visible outside the component state. *)
Inductive Event :=
| Confirm (msg : string) (answer : bool)
| Alert (msg : string)
| ConsoleError (label : string) (error : JsError)
| PreventDefault
| Sent (r : Request)
| Settled (r : Request) (o : Outcome).

(* ===================================================================== *)
(** ** The monad of asynchronous handlers *)
(* ===================================================================== *)

Inductive Completion (A : Type) :=
| Normal (a : A)
| Throw (error : JsError).
Arguments Throw {A} error.

Section Async.

(** [B] is the state of the backend, [St] the state variables of the
    component the handler belongs to. *)
Variables B St : Type.

(** What a run leaves: how it completed, the state variables and the
    backend at its end, its effects in order, and, for each request it
    awaited, the state variables as they stood when the request went
    out, which is what the page shows until that request settles. *)
Record Run (A : Type) := mkRun {
  completion : Completion A;
  state : St;
  backend : B;
  events : list Event;
  inflight : list (Request * St)
}.

Definition Async (A : Type) : Type := St -> B -> Run A.

Definition bindA {A C} (m : Async A) (k : A -> Async C) : Async C :=
  fun s b =>
    match m s b with
    | mkRun (Normal a) s1 b1 t1 p1 =>
        match k a s1 b1 with
        | mkRun c s2 b2 t2 p2 => mkRun c s2 b2 (t1 ++ t2) (p1 ++ p2)
        end
    | mkRun (Throw e) s1 b1 t1 p1 => mkRun (Throw e) s1 b1 t1 p1
    end.

Definition retA {A} (a : A) : Async A :=
  fun s b => mkRun (Normal a) s b [] [].

Definition throwA {A} (e : JsError) : Async A :=
  fun s b => mkRun (Throw e) s b [] [].

(** [try { m } catch (error) { h error }] *)
Definition catchA {A} (m : Async A) (h : JsError -> Async A) : Async A :=
  fun s b =>
    match m s b with
    | mkRun (Normal a) s1 b1 t1 p1 => mkRun (Normal a) s1 b1 t1 p1
    | mkRun (Throw e) s1 b1 t1 p1 =>
        match h e s1 b1 with
        | mkRun c s2 b2 t2 p2 => mkRun c s2 b2 (t1 ++ t2) (p1 ++ p2)
        end
    end.

(** [try { m } finally { f }]: [f] runs however [m] completes; the
    completion of [m] stands unless [f] itself throws. *)
Definition finally {A} (m : Async A) (f : Async unit) : Async A :=
  fun s b =>
    match m s b with
    | mkRun c s1 b1 t1 p1 =>
        match f s1 b1 with
        | mkRun (Normal _) s2 b2 t2 p2 => mkRun c s2 b2 (t1 ++ t2) (p1 ++ p2)
        | mkRun (Throw e) s2 b2 t2 p2 =>
            mkRun (Throw e) s2 b2 (t1 ++ t2) (p1 ++ p2)
        end
    end.

#[global] Instance Monad_Async : Monad Async :=
  {| ret := @retA; bind := @bindA |}.

#[global] Instance Exc_Async : MonadExc JsError Async :=
  {| raise := @throwA; catch := @catchA |}.

(** A state setter called with an updater function:
    [setX(prev => f prev)]. *)
Definition update (f : St -> St) : Async unit :=
  fun s b => mkRun (Normal tt) (f s) b [] [].

Definition emit (e : Event) : Async unit :=
  fun s b => mkRun (Normal tt) s b [e] [].

(** The handler's view of the state variables of the render it closes over. *)
Definition snapshot : Async St :=
  fun s b => mkRun (Normal s) s b [] [].

Section Environment.

(** The backend answers a request and moves to its next state. *)
Variable serve : B -> Request -> Outcome * B.
(** The user's answer to a [confirm] dialog. *)
Variable answer : string -> bool.

(** [await client.<verb>(...)], then [response.data]: the request
    goes out with the state variables as the updates so far have left
    them, the promise settles, a rejection is thrown. *)
Definition await (r : Request) : Async Data :=
  fun s b =>
    let (o, b') := serve b r in
    mkRun (match o with
           | Resolved d => Normal d
           | Rejected e => Throw e
           end)
          s b' [Sent r; Settled r o] [(r, s)].

Definition confirm (msg : string) : Async bool :=
  fun s b => mkRun (Normal (answer msg)) s b [Confirm msg (answer msg)] [].

Definition alert (msg : string) : Async unit := emit (Alert msg).

Definition console_error (label : string) (e : JsError) : Async unit :=
  emit (ConsoleError label e).

End Environment.

End Async.

Arguments update {B St} f.
Arguments emit {B St} e.
Arguments snapshot {B St}.
Arguments await {B St} serve r.
Arguments confirm {B St} answer msg.
Arguments alert {B St} msg.
Arguments console_error {B St} label e.
Arguments finally {B St A} m f.

(* ===================================================================== *)
(** ** Request wrappers ([FE/src/api]) *)
(* ===================================================================== *)

Module pdfService.
Section Api.
Variables B St : Type.
Variable serve : B -> Request -> Outcome * B.

(** [client.post('/pdf/upload', formData)] with [file] and [user_id]. *)
Definition uploadPdf (file : File) (userId : string) : Async B St Data :=
  await serve (PostPdfUpload file userId).

(** [client.delete(`/pdf/delete/${bookName}`, { params: { user_id } })] *)
Definition deleteProcessedBook (bookName userId : string) : Async B St Data :=
  await serve (DeletePdf bookName userId).

End Api.
Arguments uploadPdf {B St} serve file userId.
Arguments deleteProcessedBook {B St} serve bookName userId.
End pdfService.

Module embeddingService.
Section Api.
Variables B St : Type.
Variable serve : B -> Request -> Outcome * B.

(** [indexBook(bookName, userId, forceReindex = false)] *)
Definition indexBook (bookName userId : string) (forceReindex : bool)
  : Async B St Data :=
  await serve (PostIndexBook bookName userId forceReindex).

Definition listCollections : Async B St Data :=
  await serve GetCollections.

(** [client.delete(`/embedding/collection/${collectionName}`)]: see
    [DeleteCollection] for the URL. *)
Definition deleteCollection (collectionName : string) : Async B St Data :=
  await serve (DeleteCollection collectionName).

End Api.
Arguments indexBook {B St} serve bookName userId forceReindex.
Arguments listCollections {B St} serve.
Arguments deleteCollection {B St} serve collectionName.
End embeddingService.

Module agentService.
Section Api.
Variables B St : Type.
Variable serve : B -> Request -> Outcome * B.

(** [chat(userId, sessionId, query, dbName = null)]: the body carries
    [db_name: dbName]; [None] is [null]. *)
Definition chat (userId sessionId query : string) (dbName : option string)
  : Async B St Data :=
  await serve (PostAgentChat userId sessionId query dbName).

(** [client.delete(`/agent/session/${userId}/${sessionId}`)] *)
Definition deleteSession (userId sessionId : string) : Async B St Data :=
  await serve (DeleteAgentSession userId sessionId).

End Api.
Arguments chat {B St} serve userId sessionId query dbName.
Arguments deleteSession {B St} serve userId sessionId.
End agentService.

(* ===================================================================== *)
(** ** The identity hook ([FE/src/hooks/useAuth.js]) *)
(* ===================================================================== *)

Module useAuth.

(** [useState('')]: until the effect of the hook has read (or created)
    the stored identity, a component sees the empty string. *)
Definition initialUserId : string := "".

End useAuth.

(* ===================================================================== *)
(** ** The library page ([FE/src/pages/Home.jsx]) *)
(* ===================================================================== *)

Module Home.

(** The state variables of the component; [userId] comes from [useAuth]
    and is [''] until the stored identity has been read. *)
Record State := mkState {
  userId : string;
  books : list Collection;
  loading : bool;
  isUploadModalOpen : bool;
  uploading : bool;
  selectedFile : option File
}.

Definition setBooks (v : list Collection) (s : State) : State :=
  mkState (userId s) v (loading s) (isUploadModalOpen s) (uploading s)
          (selectedFile s).

Definition setLoading (v : bool) (s : State) : State :=
  mkState (userId s) (books s) v (isUploadModalOpen s) (uploading s)
          (selectedFile s).

Definition setIsUploadModalOpen (v : bool) (s : State) : State :=
  mkState (userId s) (books s) (loading s) v (uploading s) (selectedFile s).

Definition setUploading (v : bool) (s : State) : State :=
  mkState (userId s) (books s) (loading s) (isUploadModalOpen s) v
          (selectedFile s).

Definition setSelectedFile (v : option File) (s : State) : State :=
  mkState (userId s) (books s) (loading s) (isUploadModalOpen s)
          (uploading s) v.

(** [`Are you sure you want to delete "${bookName}"?`] *)
Definition deletePrompt (bookName : string) : string :=
  "Are you sure you want to delete " ++ Js.dquote ++ bookName
    ++ Js.dquote ++ "?".

Section Handlers.
Variable B : Type.
Variable serve : B -> Request -> Outcome * B.
Variable answer : string -> bool.

(** [data.collections || []] *)
Definition collections_or_empty (data : Data) : list Collection :=
  match data_collections data with
  | Some cs => cs
  | None => []
  end.

Definition fetchBooks : Async B State unit :=
  finally
    (catch
       (update (setLoading true) ;;
        data <- embeddingService.listCollections serve ;;
        update (setBooks (collections_or_empty data)))
       (fun error => console_error "Failed to fetch books:" error))
    (update (setLoading false)).

(** [fetchBooks()] is called without [await] at the end of the two
    handlers below.  Its continuation runs after the rest of the calling
    handler, which only writes [uploading]; [fetchBooks] writes [loading]
    and [books] and never throws, so running it in place gives the same
    state and the same sequence of events. *)
Definition handleUpload : Async B State unit :=
  st <- snapshot ;;
  match selectedFile st with
  | None => ret tt
  | Some file =>
      if negb (Js.truthy (userId st)) then ret tt
      else
        finally
          (catch
             (update (setUploading true) ;;
              _ <- pdfService.uploadPdf serve file (userId st) ;;
              let bookName := Js.replace ".pdf" "" (name file) in
              _ <- embeddingService.indexBook serve bookName (userId st) false ;;
              update (setIsUploadModalOpen false) ;;
              update (setSelectedFile None) ;;
              fetchBooks)
             (fun error =>
                console_error "Upload failed:" error ;;
                alert ("Upload failed: " ++ message error)))
          (update (setUploading false))
  end.

Definition handleDelete (bookName : string) : Async B State unit :=
  st <- snapshot ;;
  ok <- confirm answer (deletePrompt bookName) ;;
  if negb ok then ret tt
  else
    catch
      (_ <- embeddingService.deleteCollection serve bookName ;;
       _ <- pdfService.deleteProcessedBook serve bookName (userId st) ;;
       fetchBooks)
      (fun error => console_error "Delete failed:" error).

End Handlers.
End Home.

Arguments Home.deletePrompt bookName : simpl never.

(* ===================================================================== *)
(** ** The chat page ([FE/src/pages/Chat.jsx]) *)
(* ===================================================================== *)

Module Chat.

Inductive Role := user | assistant | system.

(** An entry of the transcript; a field that is not set reads as
    [undefined], here [None]. *)
Record ChatMessage := mkMessage {
  role : Role;
  content : option string;
  artifacts : option (list Artifact)
}.

Record State := mkState {
  userId : string;
  messages : list ChatMessage;
  input : string;
  loading : bool;
  collections : list Collection;
  selectedCollection : option string
}.

(** [setMessages] is called with an updater [(prev) => ...] or a value. *)
Definition setMessages (f : list ChatMessage -> list ChatMessage) (s : State)
  : State :=
  mkState (userId s) (f (messages s)) (input s) (loading s) (collections s)
          (selectedCollection s).

Definition setInput (v : string) (s : State) : State :=
  mkState (userId s) (messages s) v (loading s) (collections s)
          (selectedCollection s).

Definition setLoading (v : bool) (s : State) : State :=
  mkState (userId s) (messages s) (input s) v (collections s)
          (selectedCollection s).

Definition setSelectedCollection (v : option string) (s : State) : State :=
  mkState (userId s) (messages s) (input s) (loading s) (collections s) v.

Definition failureNote : ChatMessage :=
  mkMessage system (Some "Error: Failed to get response from agent.") None.

Section Handlers.
Variable B : Type.
Variable serve : B -> Request -> Outcome * B.
Variable answer : string -> bool.

Definition handleSend : Async B State unit :=
  st <- snapshot ;;
  emit PreventDefault ;;
  if negb (Js.truthy (Js.trim (input st))) || negb (Js.truthy (userId st))
  then ret tt
  else
    let userMessage := mkMessage user (Some (input st)) None in
    update (setMessages (fun prev => (prev ++ [userMessage])%list)) ;;
    update (setInput "") ;;
    update (setLoading true) ;;
    finally
      (catch
         (response <- agentService.chat serve
                        (userId st)
                        (userId st)                (* sessionId *)
                        (input st)                 (* userMessage.content *)
                        (selectedCollection st) ;; (* db_name *)
          let botMessage :=
            mkMessage assistant (data_response response)
                      (data_artifacts response) in
          update (setMessages (fun prev => (prev ++ [botMessage])%list)))
         (fun error =>
            console_error "Chat failed:" error ;;
            update (setMessages (fun prev => (prev ++ [failureNote])%list))))
      (update (setLoading false)).

Definition handleClearSession : Async B State unit :=
  st <- snapshot ;;
  ok <- confirm answer "Clear chat history?" ;;
  if negb ok then ret tt
  else
    catch
      (_ <- agentService.deleteSession serve (userId st) (userId st) ;;
       update (setMessages (fun _ => [])))
      (fun error => console_error "Failed to clear session:" error).

End Handlers.
End Chat.

(* ===================================================================== *)
(** ** A scripted backend for concrete runs *)
(* ===================================================================== *)

(** The backend settles the requests it receives with the outcomes of a
    script, in order; once the script is used up, requests get no
    response. *)
Module Scripted.

Definition networkError : JsError := {| message := "Network Error" |}.

Definition serve (script : list Outcome) (r : Request)
  : Outcome * list Outcome :=
  match script with
  | o :: rest => (o, rest)
  | [] => (Rejected networkError, [])
  end.

(** The user confirms every dialog. *)
Definition yes (_ : string) : bool := true.

End Scripted.

(* ===================================================================== *)
(** ** What a run shows to the outside *)
(* ===================================================================== *)

(** The requests a run issued, in order. *)
Fixpoint sent (tr : list Event) : list Request :=
  match tr with
  | [] => []
  | Sent r :: tr' => r :: sent tr'
  | _ :: tr' => sent tr'
  end.

Definition is_report (e : Event) : bool :=
  match e with
  | Alert _ | ConsoleError _ _ => true
  | _ => false
  end.

(** What a run tells the user or the console. *)
Definition reported (tr : list Event) : list Event := filter is_report tr.

(** The outcome of an operation as its caller can tell it: how it
    completed, the state variables it leaves, and what it reported. *)
Definition outcome_of {B St A} (r : Run B St A)
  : Completion A * St * list Event :=
  (completion r, state r, reported (events r)).

(** A text made of white space only (the empty text included). *)
Fixpoint whitespace_only (s : string) : bool :=
  match s with
  | EmptyString => true
  | String c s' => Js.isWhiteSpace c && whitespace_only s'
  end.

(** The chat request of a turn, with the arguments [handleSend] passes:
    the identity as user and as session, the typed text, the selected
    collection. *)
Definition turn (s : Chat.State) : Request :=
  PostAgentChat (Chat.userId s) (Chat.userId s) (Chat.input s)
                (Chat.selectedCollection s).

(** The state variables of the chat page while the request of a turn
    is in flight, as the updates before the [await] have left them: the
    user message appended, the input cleared, [loading] on. *)
Definition sending (s : Chat.State) : Chat.State :=
  Chat.setLoading true
    (Chat.setInput ""
       (Chat.setMessages
          (fun prev =>
             (prev ++ [Chat.mkMessage Chat.user (Some (Chat.input s)) None])%list)
          s)).

(** The state a catalog refresh leaves when the listing request settles
    with [o], and the events of that refresh. *)
Definition after_refresh (o : Outcome) (s : Home.State) : Home.State :=
  match o with
  | Resolved d =>
      Home.setLoading false
        (Home.setBooks (Home.collections_or_empty d) (Home.setLoading true s))
  | Rejected _ => Home.setLoading false (Home.setLoading true s)
  end.

Definition refresh_events (o : Outcome) : list Event :=
  Sent GetCollections :: Settled GetCollections o ::
  match o with
  | Resolved _ => []
  | Rejected e => [ConsoleError "Failed to fetch books:" e]
  end.

(* ===================================================================== *)
(** ** The words of the specification *)
(* ===================================================================== *)

Module Spec.

Fixpoint has_dot (s : string) : bool :=
  match s with
  | EmptyString => false
  | String c s' => (c =? ".")%char || has_dot s'
  end.

(** Follows the specification's words, not the source: the file name
    "with its extension stripped", that is, without its last dot and
    what comes after it. *)
Fixpoint strip_extension (s : string) : string :=
  match s with
  | EmptyString => EmptyString
  | String c s' =>
      if (c =? ".")%char && negb (has_dot s') then EmptyString
      else String c (strip_extension s')
  end.

End Spec.

(* ===================================================================== *)
(** ** The two catalog services *)
(* ===================================================================== *)

Module Catalog.

(** Modelled from the spec: the indexing service and the
    document-processing service themselves (the backend, [BE/], is not
    part of the sources at hand).  Section 3 and the table of section 6
    give what the deletion workflow relies on: a collection is keyed by
    its name, "List collections" answers with the collections there are,
    "Delete collection" and "Delete processed book" remove the named
    entry of their own service and acknowledge.  A request can also fail
    without effect (TransportFailure, ServiceFailure): [faults] says,
    request after request, whether the next one does.  The other
    endpoints are outside this model and are refused. *)
Record Services := mkServices {
  collections : list Collection;
  processed : list (string * string);
  faults : list bool
}.

Definition unavailable : JsError :=
  {| message := "Request failed with status code 503" |}.

Definition notModelled : JsError :=
  {| message := "Request failed with status code 404" |}.

Definition named (n : string) (c : Collection) : bool := (col_name c =? n).

Definition owned (n u : string) (p : string * string) : bool :=
  (fst p =? n) && (snd p =? u).

(** Modelled from the spec: the part of a URL that reaches the routes
    of section 6.  What follows the first [#] is the fragment, which
    stays on the client, and what follows the first [?] is the query. *)
Fixpoint path_of (url : string) : string :=
  match url with
  | EmptyString => EmptyString
  | String c rest =>
      if ((c =? "#") || (c =? "?"))%char then EmptyString
      else String c (path_of rest)
  end.

Fixpoint strip_prefix (p s : string) : option string :=
  match p, s with
  | EmptyString, _ => Some s
  | String a p', String c s' =>
      if (a =? c)%char then strip_prefix p' s' else None
  | String _ _, EmptyString => None
  end.

Fixpoint has (c : ascii) (s : string) : bool :=
  match s with
  | EmptyString => false
  | String c' s' => (c' =? c)%char || has c s'
  end.

(** Modelled from the spec: [{name}] in a path of section 6 stands for
    one segment.  An empty text or one with a [/] is no segment; percent
    escapes are not decoded in this model, so a text with a [%] is
    refused as well. *)
Definition segment (tail : string) : option string :=
  match tail with
  | EmptyString => None
  | String _ _ => if has "/" tail || has "%" tail then None else Some tail
  end.

Inductive Route :=
| CollectionItem (name : string)
| ProcessedBookItem (book_name : string)
| NoRoute.

(** Modelled from the spec: the resource a [DELETE] on [url] addresses,
    after the paths [/embedding/collection/{name}] and
    [/pdf/delete/{book_name}] of section 6. *)
Definition route (url : string) : Route :=
  let path := path_of url in
  match strip_prefix "/embedding/collection/" path with
  | Some tail =>
      match segment tail with
      | Some n => CollectionItem n
      | None => NoRoute
      end
  | None =>
      match strip_prefix "/pdf/delete/" path with
      | Some tail =>
          match segment tail with
          | Some n => ProcessedBookItem n
          | None => NoRoute
          end
      | None => NoRoute
      end
  end.

(** The value of a query parameter, empty when it is not given. *)
Fixpoint param (key : string) (params : list (string * string)) : string :=
  match params with
  | [] => EmptyString
  | (k, v) :: rest => if (k =? key) then v else param key rest
  end.

(** Modelled from the spec: how the two services answer a request,
    after sections 3 and 6 (see [Services] above).  A faulty request is
    rejected and changes nothing; a listing answers with the collections
    there are; a delete removes the entries of the name its URL
    addresses from its own service and acknowledges. *)
Definition serve (b : Services) (r : Request) : Outcome * Services :=
  match faults b with
  | true :: later =>
      (Rejected unavailable, mkServices (collections b) (processed b) later)
  | _ =>
      let later := tl (faults b) in
      match r with
      | GetCollections =>
          (Resolved (CollectionsBody (List.length (collections b))
                                     (Some (collections b))),
           mkServices (collections b) (processed b) later)
      | Delete url params =>
          match route url with
          | CollectionItem n =>
              (Resolved Ack,
               mkServices (filter (fun c => negb (named n c)) (collections b))
                          (processed b) later)
          | ProcessedBookItem n =>
              (Resolved Ack,
               mkServices (collections b)
                          (filter (fun p => negb (owned n (param "user_id" params) p))
                                  (processed b))
                          later)
          | NoRoute =>
              (Rejected notModelled,
               mkServices (collections b) (processed b) later)
          end
      | _ =>
          (Rejected notModelled,
           mkServices (collections b) (processed b) later)
      end
  end.

(** A name made of letters, digits, [_] and [-] only, and not empty:
    the URL carries such a name as it is. *)
Definition plain_char (c : ascii) : bool :=
  let n := nat_of_ascii c in
  (Nat.leb 48 n && Nat.leb n 57) || (Nat.leb 65 n && Nat.leb n 90)
  || (Nat.leb 97 n && Nat.leb n 122) || Nat.eqb n 95 || Nat.eqb n 45.

Fixpoint all_plain (s : string) : bool :=
  match s with
  | EmptyString => true
  | String c s' => plain_char c && all_plain s'
  end.

Definition plain (s : string) : bool := Js.truthy s && all_plain s.

End Catalog.

(** The book names a library view shows. *)
Definition shown (bs : list Collection) : list string := map col_name bs.

(* ===================================================================== *)
(** ** Concrete inputs *)
(* ===================================================================== *)

Module Fixtures.

Definition uid : string := "user_k3j9x2m1q".

Definition boom : JsError := {| message := "Request failed with status code 500" |}.

Definition physics_pdf : File := {| name := "physics.pdf"; size := 1048576 |}.

Definition empty_pdf : File := {| name := "empty.pdf"; size := 0 |}.

Definition scan_pdf : File := {| name := "lecture.pdf.scan.pdf"; size := 2048 |}.

Definition upper_pdf : File := {| name := "Lecture.PDF"; size := 2048 |}.

Definition physics : Collection :=
  {| col_name := "physics"; total_chapters := 12; total_images := 40 |}.

Definition algebra : Collection :=
  {| col_name := "algebra"; total_chapters := 7; total_images := 3 |}.

(** The library page with a file picked in the upload dialog. *)
Definition home (f : option File) : Home.State :=
  Home.mkState uid [physics] false true false f.

Definition hello : Chat.ChatMessage :=
  Chat.mkMessage Chat.user (Some "hello") None.

(** The chat page with one earlier message and a typed question. *)
Definition chat (text : string) (scope : option string) : Chat.State :=
  Chat.mkState uid [hello] text false [physics] scope.

Definition services (faults : list bool) : Catalog.Services :=
  Catalog.mkServices [physics; algebra] [("physics", uid); ("algebra", uid)]
                     faults.

Definition c_book : Collection :=
  {| col_name := "C"; total_chapters := 8; total_images := 5 |}.

Definition c_sharp_notes : Collection :=
  {| col_name := "C# notes"; total_chapters := 4; total_images := 0 |}.

(** A library with a book named [C] and one named [C# notes], both
    services up. *)
Definition shelf : Catalog.Services :=
  Catalog.mkServices [c_book; c_sharp_notes]
                     [("C", uid); ("C# notes", uid)] [].

Definition shelf_page : Home.State :=
  Home.mkState uid [c_book; c_sharp_notes] false false false None.

End Fixtures.

(* ===================================================================== *)
(** ** The other event handlers of the two pages *)
(* ===================================================================== *)

(** [h1 ;; h2] applies [h2] to the state and the backend [h1] left.
    On the chat page, which renders in every state, this is two events
    in a row: the component renders again in between, and the second
    handler closes over the state the first one left.  On the library
    page it is read at the level of the functions only: the preview of
    the selected file in [Home.jsx] uses [X], which the file does not
    import, so that page does not render once a file is selected. *)

Module ChatPage.

Definition setCollections (v : list Collection) (s : Chat.State)
  : Chat.State :=
  Chat.mkState (Chat.userId s) (Chat.messages s) (Chat.input s)
               (Chat.loading s) v (Chat.selectedCollection s).

Section Events.
Variable B : Type.
Variable serve : B -> Request -> Outcome * B.

(** The effect run when the page mounts: it loads the collections of the
    context list. *)
Definition loadCollections : Async B Chat.State unit :=
  catch
    (data <- embeddingService.listCollections serve ;;
     update (setCollections (Home.collections_or_empty data)))
    (fun error => console_error "Failed to load collections:" error).

(** [onChange={(e) => setInput(e.target.value)}] *)
Definition onInputChange (value : string) : Async B Chat.State unit :=
  update (Chat.setInput value).

(** [onClick={() => setSelectedCollection(col.name)}] *)
Definition selectCollection (col : Collection) : Async B Chat.State unit :=
  update (Chat.setSelectedCollection (Some (col_name col))).

(** [onClick={() => setSelectedCollection(null)}] *)
Definition selectAllBooks : Async B Chat.State unit :=
  update (Chat.setSelectedCollection None).

End Events.
Arguments onInputChange B value : clear implicits.
Arguments selectCollection B col : clear implicits.
Arguments selectAllBooks B : clear implicits.
End ChatPage.

(** The message [handleSend] appends once its request has settled. *)
Definition reply_of (o : Outcome) : Chat.ChatMessage :=
  match o with
  | Resolved d => Chat.mkMessage Chat.assistant (data_response d)
                                 (data_artifacts d)
  | Rejected _ => Chat.failureNote
  end.

(** [String.prototype.includes]. *)
Fixpoint includes (pat s : string) : bool :=
  prefix pat s
  || match s with
     | EmptyString => false
     | String _ s' => includes pat s'
     end.

(* ===================================================================== *)
(** ** The identity effect ([FE/src/hooks/useAuth.js]) *)
(* ===================================================================== *)

(** [localStorage]: the items in the order they were last set. *)
Module LocalStorage.

Definition Storage := list (string * string).

Fixpoint getItem (key : string) (st : Storage) : option string :=
  match st with
  | [] => None
  | (k, v) :: st' => if (k =? key) then Some v else getItem key st'
  end.

Fixpoint removeItem (key : string) (st : Storage) : Storage :=
  match st with
  | [] => []
  | (k, v) :: st' =>
      if (k =? key) then removeItem key st' else (k, v) :: removeItem key st'
  end.

Definition setItem (key value : string) (st : Storage) : Storage :=
  (key, value) :: removeItem key st.

End LocalStorage.

Module Identity.

(** The body of the effect of [useAuth].  [digits] stands for
    [Math.random().toString(36).substr(2, 9)], the random part of a new
    identity.  A stored value that is [null] or empty is falsy and gets
    replaced.  The result is the value given to [setUserId] and the
    storage the effect leaves. *)
Definition effect (digits : string) (st : LocalStorage.Storage)
  : string * LocalStorage.Storage :=
  let fresh := "user_" ++ digits in
  match LocalStorage.getItem "user_id" st with
  | Some storedUserId =>
      if Js.truthy storedUserId then (storedUserId, st)
      else (fresh, LocalStorage.setItem "user_id" fresh st)
  | None => (fresh, LocalStorage.setItem "user_id" fresh st)
  end.

End Identity.

(* ===================================================================== *)
(** * Properties *)
(* ===================================================================== *)

Unset Implicit Arguments.

(** Runs a handler as far as the outcomes of its requests are known. *)
Ltac run_handler :=
  cbn [bind ret catch raise Monad_Async Exc_Async];
  unfold bindA, catchA, finally, retA, throwA, update, emit, snapshot,
    confirm, alert, console_error,
    pdfService.uploadPdf, pdfService.deleteProcessedBook,
    embeddingService.indexBook, embeddingService.listCollections,
    embeddingService.deleteCollection,
    agentService.chat, agentService.deleteSession, await;
  cbn.

(** Uses the known outcome of the next request, then runs on. *)
Ltac settle H := rewrite H; cbn.

(** ** Strings *)

Lemma truthy_empty (s : string) : Js.truthy s = false <-> s = "".
Proof.
  destruct s; simpl; split; intros H; try reflexivity; discriminate H.
Qed.

Lemma trimStart_whitespace_only (s : string) :
  whitespace_only s = true -> Js.trimStart s = "".
Proof.
  induction s as [| c s IH]; simpl; intros H.
  - reflexivity.
  - apply andb_true_iff in H. destruct H as [Hc Hs].
    rewrite Hc. exact (IH Hs).
Qed.

Lemma trim_whitespace_only (s : string) :
  whitespace_only s = true -> Js.trim s = "".
Proof.
  intros H. unfold Js.trim. rewrite (trimStart_whitespace_only s H).
  reflexivity.
Qed.

Lemma prefix_pdf_no_dot (c : ascii) (s : string) :
  (c =? ".")%char = false -> prefix ".pdf" (String c s) = false.
Proof.
  intros H.
  change (prefix ".pdf" (String c s))
    with (if ascii_dec "." c then prefix "pdf" s else false).
  destruct (ascii_dec "." c) as [E | _].
  - subst c. discriminate H.
  - reflexivity.
Qed.

(** On an ordinary name, a base without dots followed by [.pdf], the
    replacement of the handler strips the extension. *)
Lemma replace_pdf_plain (base : string) :
  Spec.has_dot base = false ->
  Js.replace ".pdf" "" (base ++ ".pdf") = base.
Proof.
  induction base as [| c base IH]; intros H.
  - reflexivity.
  - simpl in H. apply orb_false_iff in H. destruct H as [Hc Hb].
    change (String c base ++ ".pdf") with (String c (base ++ ".pdf")).
    unfold Js.replace; fold Js.replace.
    rewrite (prefix_pdf_no_dot c _ Hc), (IH Hb). reflexivity.
Qed.

Lemma strip_extension_plain (base : string) :
  Spec.has_dot base = false ->
  Spec.strip_extension (base ++ ".pdf") = base.
Proof.
  induction base as [| c base IH]; intros H.
  - reflexivity.
  - simpl in H. apply orb_false_iff in H. destruct H as [Hc Hb].
    simpl. rewrite Hc, (IH Hb). reflexivity.
Qed.

(** ** The library page *)

Section HomeRuns.
Variable B : Type.
Variable serve : B -> Request -> Outcome * B.
Variable answer : string -> bool.

Lemma fetchBooks_run (s : Home.State) (b b' : B) (o : Outcome) :
  serve b GetCollections = (o, b') ->
  Home.fetchBooks serve s b
  = mkRun (Normal tt) (after_refresh o s) b' (refresh_events o)
      [(GetCollections, Home.setLoading true s)].
Proof.
  intros H. unfold Home.fetchBooks. run_handler. settle H.
  destruct o; reflexivity.
Qed.

Lemma fetchBooks_never_throws (s : Home.State) (b : B) :
  completion (Home.fetchBooks serve s b) = Normal tt.
Proof.
  destruct (serve b GetCollections) as [o b'] eqn:H.
  rewrite (fetchBooks_run s b b' o H). reflexivity.
Qed.

Lemma handleUpload_no_file (s : Home.State) (b : B) :
  Home.selectedFile s = None ->
  Home.handleUpload serve s b = mkRun (Normal tt) s b [] [].
Proof.
  intros H. unfold Home.handleUpload. run_handler. rewrite H. reflexivity.
Qed.

Lemma handleUpload_no_identity (s : Home.State) (b : B) :
  Home.userId s = "" ->
  Home.handleUpload serve s b = mkRun (Normal tt) s b [] [].
Proof.
  intros H. unfold Home.handleUpload. run_handler. rewrite H.
  destruct (Home.selectedFile s); reflexivity.
Qed.

Lemma handleUpload_upload_rejected s b file e b1 :
  Home.selectedFile s = Some file ->
  Js.truthy (Home.userId s) = true ->
  serve b (PostPdfUpload file (Home.userId s)) = (Rejected e, b1) ->
  Home.handleUpload serve s b
  = mkRun (Normal tt) (Home.setUploading false s) b1
      [Sent (PostPdfUpload file (Home.userId s));
       Settled (PostPdfUpload file (Home.userId s)) (Rejected e);
       ConsoleError "Upload failed:" e;
       Alert ("Upload failed: " ++ message e)]
      [(PostPdfUpload file (Home.userId s), Home.setUploading true s)].
Proof.
  intros Hf Hu H1. unfold Home.handleUpload. run_handler.
  rewrite Hf, Hu. run_handler. settle H1. reflexivity.
Qed.

Lemma handleUpload_index_rejected s b file d e b1 b2 :
  Home.selectedFile s = Some file ->
  Js.truthy (Home.userId s) = true ->
  serve b (PostPdfUpload file (Home.userId s)) = (Resolved d, b1) ->
  serve b1 (PostIndexBook (Js.replace ".pdf" "" (name file))
                          (Home.userId s) false) = (Rejected e, b2) ->
  Home.handleUpload serve s b
  = mkRun (Normal tt) (Home.setUploading false s) b2
      [Sent (PostPdfUpload file (Home.userId s));
       Settled (PostPdfUpload file (Home.userId s)) (Resolved d);
       Sent (PostIndexBook (Js.replace ".pdf" "" (name file))
                           (Home.userId s) false);
       Settled (PostIndexBook (Js.replace ".pdf" "" (name file))
                              (Home.userId s) false) (Rejected e);
       ConsoleError "Upload failed:" e;
       Alert ("Upload failed: " ++ message e)]
      [(PostPdfUpload file (Home.userId s), Home.setUploading true s);
       (PostIndexBook (Js.replace ".pdf" "" (name file)) (Home.userId s) false,
        Home.setUploading true s)].
Proof.
  intros Hf Hu H1 H2. unfold Home.handleUpload. run_handler.
  rewrite Hf, Hu. run_handler. settle H1. settle H2. reflexivity.
Qed.

Lemma handleUpload_indexed s b file d1 d2 o b1 b2 b3 :
  Home.selectedFile s = Some file ->
  Js.truthy (Home.userId s) = true ->
  serve b (PostPdfUpload file (Home.userId s)) = (Resolved d1, b1) ->
  serve b1 (PostIndexBook (Js.replace ".pdf" "" (name file))
                          (Home.userId s) false) = (Resolved d2, b2) ->
  serve b2 GetCollections = (o, b3) ->
  Home.handleUpload serve s b
  = mkRun (Normal tt)
      (Home.setUploading false
         (after_refresh o
            (Home.setSelectedFile None
               (Home.setIsUploadModalOpen false s))))
      b3
      (Sent (PostPdfUpload file (Home.userId s))
       :: Settled (PostPdfUpload file (Home.userId s)) (Resolved d1)
       :: Sent (PostIndexBook (Js.replace ".pdf" "" (name file))
                              (Home.userId s) false)
       :: Settled (PostIndexBook (Js.replace ".pdf" "" (name file))
                                 (Home.userId s) false) (Resolved d2)
       :: refresh_events o)
      [(PostPdfUpload file (Home.userId s), Home.setUploading true s);
       (PostIndexBook (Js.replace ".pdf" "" (name file)) (Home.userId s) false,
        Home.setUploading true s);
       (GetCollections,
        Home.setLoading true
          (Home.setSelectedFile None
             (Home.setIsUploadModalOpen false (Home.setUploading true s))))].
Proof.
  intros Hf Hu H1 H2 H3. unfold Home.handleUpload. run_handler.
  rewrite Hf, Hu. run_handler. settle H1. settle H2.
  unfold Home.fetchBooks. run_handler. settle H3.
  destruct o; reflexivity.
Qed.

End HomeRuns.

(** *** Ingestion *)

(** On an ordinary name the index request carries the stripped name. *)
Lemma handleUpload_book_name_plain
  (B : Type) (serve : B -> Request -> Outcome * B) s b file base d1 b1 :
  Home.selectedFile s = Some file ->
  Js.truthy (Home.userId s) = true ->
  name file = base ++ ".pdf" ->
  Spec.has_dot base = false ->
  serve b (PostPdfUpload file (Home.userId s)) = (Resolved d1, b1) ->
  exists rest,
    sent (events (Home.handleUpload serve s b))
    = PostPdfUpload file (Home.userId s)
      :: PostIndexBook (Spec.strip_extension (name file)) (Home.userId s) false
      :: rest.
Proof.
  intros Hf Hu Hn Hd H1.
  assert (E : Js.replace ".pdf" "" (name file)
              = Spec.strip_extension (name file)).
  { rewrite Hn, replace_pdf_plain, strip_extension_plain by exact Hd.
    reflexivity. }
  rewrite <- E.
  destruct (serve b1 (PostIndexBook (Js.replace ".pdf" "" (name file))
                                    (Home.userId s) false))
    as [[d2 | e] b2] eqn:H2.
  - destruct (serve b2 GetCollections) as [o b3] eqn:H3.
    rewrite (handleUpload_indexed B serve s b file d1 d2 o b1 b2 b3 Hf Hu H1 H2 H3).
    eexists. reflexivity.
  - rewrite (handleUpload_index_rejected B serve s b file d1 e b1 b2 Hf Hu H1 H2).
    eexists. reflexivity.
Qed.

(** C1, as stated, fails: a run in which the upload resolves and the
    index request is rejected has the very outcome of a run in which the
    upload itself is rejected with the same error.  The handler has one
    [catch] for both requests, so nothing in the completion, the state
    or the report tells a partial ingestion from a failed upload. *)
Lemma handleUpload_partial_ingestion_not_distinct :
  let s := Fixtures.home (Some Fixtures.physics_pdf) in
  let partial :=
    Home.handleUpload Scripted.serve s [Resolved Ack; Rejected Fixtures.boom] in
  let failed :=
    Home.handleUpload Scripted.serve s [Rejected Fixtures.boom] in
  events partial
  = [Sent (PostPdfUpload Fixtures.physics_pdf Fixtures.uid);
     Settled (PostPdfUpload Fixtures.physics_pdf Fixtures.uid) (Resolved Ack);
     Sent (PostIndexBook "physics" Fixtures.uid false);
     Settled (PostIndexBook "physics" Fixtures.uid false)
             (Rejected Fixtures.boom);
     ConsoleError "Upload failed:" Fixtures.boom;
     Alert "Upload failed: Request failed with status code 500"]
  /\ events failed
     = [Sent (PostPdfUpload Fixtures.physics_pdf Fixtures.uid);
        Settled (PostPdfUpload Fixtures.physics_pdf Fixtures.uid)
                (Rejected Fixtures.boom);
        ConsoleError "Upload failed:" Fixtures.boom;
        Alert "Upload failed: Request failed with status code 500"]
  /\ outcome_of partial = outcome_of failed.
Proof.
  repeat split; reflexivity.
Qed.

(** C1, amended: when the upload resolves and the index request is
    rejected with an error, the handler completes normally, logs
    "Upload failed:" with the error and alerts "Upload failed: " followed
    by the error's message; it leaves the dialog open and the file
    selected, resets [uploading], and issues no catalog refresh.  This is
    the report a rejected upload with the same error gets. *)
Theorem handleUpload_index_failure_report
  (B : Type) (serve : B -> Request -> Outcome * B) s b file d e b1 b2 :
  Home.selectedFile s = Some file ->
  Js.truthy (Home.userId s) = true ->
  serve b (PostPdfUpload file (Home.userId s)) = (Resolved d, b1) ->
  serve b1 (PostIndexBook (Js.replace ".pdf" "" (name file))
                          (Home.userId s) false) = (Rejected e, b2) ->
  let r := Home.handleUpload serve s b in
  outcome_of r
  = (Normal tt, Home.setUploading false s,
     [ConsoleError "Upload failed:" e;
      Alert ("Upload failed: " ++ message e)])
  /\ sent (events r)
     = [PostPdfUpload file (Home.userId s);
        PostIndexBook (Js.replace ".pdf" "" (name file)) (Home.userId s) false]
  /\ forall b' b'',
       serve b' (PostPdfUpload file (Home.userId s)) = (Rejected e, b'') ->
       outcome_of (Home.handleUpload serve s b') = outcome_of r.
Proof.
  intros Hf Hu H1 H2 r. subst r.
  rewrite (handleUpload_index_rejected B serve s b file d e b1 b2 Hf Hu H1 H2).
  repeat split.
  intros b' b'' H'.
  rewrite (handleUpload_upload_rejected B serve s b' file e b'' Hf Hu H').
  reflexivity.
Qed.

Lemma handleUpload_index_failure_report_witness :
  let s := Fixtures.home (Some Fixtures.physics_pdf) in
  let r :=
    Home.handleUpload Scripted.serve s [Resolved Ack; Rejected Fixtures.boom] in
  outcome_of r
  = (Normal tt, Home.setUploading false s,
     [ConsoleError "Upload failed:" Fixtures.boom;
      Alert ("Upload failed: " ++ message Fixtures.boom)])
  /\ sent (events r)
     = [PostPdfUpload Fixtures.physics_pdf Fixtures.uid;
        PostIndexBook "physics" Fixtures.uid false]
  /\ forall b' b'',
       Scripted.serve b' (PostPdfUpload Fixtures.physics_pdf Fixtures.uid)
       = (Rejected Fixtures.boom, b'') ->
       outcome_of (Home.handleUpload Scripted.serve s b') = outcome_of r.
Proof.
  apply (handleUpload_index_failure_report
           (list Outcome) Scripted.serve
           (Fixtures.home (Some Fixtures.physics_pdf))
           [Resolved Ack; Rejected Fixtures.boom]
           Fixtures.physics_pdf Ack Fixtures.boom
           [Rejected Fixtures.boom] []);
    reflexivity.
Defined.

(** C6: the name sent to index-book is the file name with its first
    [.pdf] removed, which is not always the name without its extension.
    For [lecture.pdf.scan.pdf] the request carries [lecture.scan.pdf],
    and for [Lecture.PDF] it carries [Lecture.PDF] unchanged. *)
Theorem handleUpload_book_name_first_occurrence :
  let listing := Resolved (CollectionsBody 0 (Some [])) in
  let r1 :=
    Home.handleUpload Scripted.serve (Fixtures.home (Some Fixtures.scan_pdf))
      [Resolved Ack; Resolved Ack; listing] in
  let r2 :=
    Home.handleUpload Scripted.serve (Fixtures.home (Some Fixtures.upper_pdf))
      [Resolved Ack; Resolved Ack; listing] in
  sent (events r1)
  = [PostPdfUpload Fixtures.scan_pdf Fixtures.uid;
     PostIndexBook "lecture.scan.pdf" Fixtures.uid false;
     GetCollections]
  /\ Spec.strip_extension (name Fixtures.scan_pdf) = "lecture.pdf.scan"
  /\ sent (events r2)
     = [PostPdfUpload Fixtures.upper_pdf Fixtures.uid;
        PostIndexBook "Lecture.PDF" Fixtures.uid false;
        GetCollections]
  /\ Spec.strip_extension (name Fixtures.upper_pdf) = "Lecture".
Proof.
  repeat split; reflexivity.
Qed.

(** C7, as stated, fails: a selected file of zero bytes passes the guard
    and is uploaded, then indexed, like any other file. *)
Lemma handleUpload_empty_file_is_uploaded :
  let r :=
    Home.handleUpload Scripted.serve (Fixtures.home (Some Fixtures.empty_pdf))
      [Resolved Ack; Resolved Ack; Resolved (CollectionsBody 0 (Some []))] in
  size Fixtures.empty_pdf = 0%N
  /\ sent (events r)
     = [PostPdfUpload Fixtures.empty_pdf Fixtures.uid;
        PostIndexBook "empty" Fixtures.uid false;
        GetCollections].
Proof.
  split; reflexivity.
Qed.

(** C7, amended: when no file is selected the handler returns at once;
    it issues no upload request and no index request, reports nothing
    and leaves the state variables as they were. *)
Theorem handleUpload_without_file_is_noop
  (B : Type) (serve : B -> Request -> Outcome * B) s b :
  Home.selectedFile s = None ->
  let r := Home.handleUpload serve s b in
  completion r = Normal tt
  /\ state r = s
  /\ backend r = b
  /\ events r = []
  /\ sent (events r) = [].
Proof.
  intros H r. subst r. rewrite (handleUpload_no_file B serve s b H).
  repeat split.
Qed.

Lemma handleUpload_without_file_is_noop_witness :
  let r :=
    Home.handleUpload Scripted.serve (Fixtures.home None) [Resolved Ack] in
  completion r = Normal tt
  /\ state r = Fixtures.home None
  /\ backend r = [Resolved Ack]
  /\ events r = []
  /\ sent (events r) = [].
Proof.
  apply (handleUpload_without_file_is_noop
           (list Outcome) Scripted.serve (Fixtures.home None) [Resolved Ack]).
  reflexivity.
Defined.

(** *** Deletion *)

Section DeleteRuns.
Variable B : Type.
Variable serve : B -> Request -> Outcome * B.
Variable answer : string -> bool.
Variable bookName : string.
Variable s : Home.State.

Lemma handleDelete_declined (b : B) :
  answer (Home.deletePrompt bookName) = false ->
  Home.handleDelete serve answer bookName s b
  = mkRun (Normal tt) s b [Confirm (Home.deletePrompt bookName) false] [].
Proof.
  intros Ha. unfold Home.handleDelete. run_handler. rewrite Ha. reflexivity.
Qed.

Lemma handleDelete_collection_rejected (b b1 : B) (e : JsError) :
  answer (Home.deletePrompt bookName) = true ->
  serve b (DeleteCollection bookName) = (Rejected e, b1) ->
  Home.handleDelete serve answer bookName s b
  = mkRun (Normal tt) s b1
      [Confirm (Home.deletePrompt bookName) true;
       Sent (DeleteCollection bookName);
       Settled (DeleteCollection bookName) (Rejected e);
       ConsoleError "Delete failed:" e]
      [(DeleteCollection bookName, s)].
Proof.
  intros Ha H1. unfold Home.handleDelete. run_handler. rewrite Ha. cbn.
  settle H1. reflexivity.
Qed.

Lemma handleDelete_pdf_rejected (b b1 b2 : B) (d : Data) (e : JsError) :
  answer (Home.deletePrompt bookName) = true ->
  serve b (DeleteCollection bookName) = (Resolved d, b1) ->
  serve b1 (DeletePdf bookName (Home.userId s)) = (Rejected e, b2) ->
  Home.handleDelete serve answer bookName s b
  = mkRun (Normal tt) s b2
      [Confirm (Home.deletePrompt bookName) true;
       Sent (DeleteCollection bookName);
       Settled (DeleteCollection bookName) (Resolved d);
       Sent (DeletePdf bookName (Home.userId s));
       Settled (DeletePdf bookName (Home.userId s)) (Rejected e);
       ConsoleError "Delete failed:" e]
      [(DeleteCollection bookName, s);
       (DeletePdf bookName (Home.userId s), s)].
Proof.
  intros Ha H1 H2. unfold Home.handleDelete. run_handler. rewrite Ha. cbn.
  settle H1. settle H2. reflexivity.
Qed.

Lemma handleDelete_both_resolved (b b1 b2 b3 : B) (d1 d2 : Data) (o : Outcome) :
  answer (Home.deletePrompt bookName) = true ->
  serve b (DeleteCollection bookName) = (Resolved d1, b1) ->
  serve b1 (DeletePdf bookName (Home.userId s)) = (Resolved d2, b2) ->
  serve b2 GetCollections = (o, b3) ->
  Home.handleDelete serve answer bookName s b
  = mkRun (Normal tt) (after_refresh o s) b3
      (Confirm (Home.deletePrompt bookName) true
       :: Sent (DeleteCollection bookName)
       :: Settled (DeleteCollection bookName) (Resolved d1)
       :: Sent (DeletePdf bookName (Home.userId s))
       :: Settled (DeletePdf bookName (Home.userId s)) (Resolved d2)
       :: refresh_events o)
      [(DeleteCollection bookName, s);
       (DeletePdf bookName (Home.userId s), s);
       (GetCollections, Home.setLoading true s)].
Proof.
  intros Ha H1 H2 H3. unfold Home.handleDelete. run_handler. rewrite Ha. cbn.
  settle H1. settle H2. unfold Home.fetchBooks. run_handler. settle H3.
  destruct o; reflexivity.
Qed.

End DeleteRuns.

(** The catalog services of the model. *)

Lemma plain_char_ordinary (c : ascii) :
  Catalog.plain_char c = true ->
  (c =? "#")%char = false /\ (c =? "?")%char = false
  /\ (c =? "/")%char = false /\ (c =? "%")%char = false.
Proof.
  destruct c as [[] [] [] [] [] [] [] []]; intros H;
    try discriminate H; repeat split.
Qed.

Lemma path_of_plain (n : string) :
  Catalog.all_plain n = true -> Catalog.path_of n = n.
Proof.
  induction n as [| c n IH]; [reflexivity |].
  cbn [Catalog.all_plain Catalog.path_of]. intros H.
  apply andb_true_iff in H. destruct H as [Hc Hn].
  destruct (plain_char_ordinary c Hc) as (H1 & H2 & _).
  rewrite H1, H2, (IH Hn). reflexivity.
Qed.

Lemma segment_plain (n : string) :
  Catalog.plain n = true -> Catalog.segment n = Some n.
Proof.
  unfold Catalog.plain. intros H.
  apply andb_true_iff in H. destruct H as [Hne Hall].
  assert (Hhas : Catalog.has "/" n = false /\ Catalog.has "%" n = false).
  { clear Hne. induction n as [| c n IH]; [split; reflexivity |].
    cbn [Catalog.all_plain] in Hall.
    apply andb_true_iff in Hall. destruct Hall as [Hc Hn].
    destruct (plain_char_ordinary c Hc) as (_ & _ & H3 & H4).
    destruct (IH Hn) as [I1 I2].
    cbn [Catalog.has]. rewrite H3, H4, I1, I2. split; reflexivity. }
  destruct Hhas as [H1 H2]. unfold Catalog.segment.
  destruct n; [discriminate Hne |]. rewrite H1, H2. reflexivity.
Qed.

(** The URL of a collection delete addresses the collection of that
    name when the name is plain. *)
Lemma route_collection_plain (n : string) :
  Catalog.plain n = true ->
  Catalog.route ("/embedding/collection/" ++ n) = Catalog.CollectionItem n.
Proof.
  intros H. unfold Catalog.route.
  assert (Hall : Catalog.all_plain n = true).
  { unfold Catalog.plain in H. apply andb_true_iff in H. exact (proj2 H). }
  cbn [append Catalog.path_of Ascii.eqb Bool.eqb orb].
  rewrite (path_of_plain n Hall).
  cbn [Catalog.strip_prefix Ascii.eqb Bool.eqb].
  rewrite (segment_plain n H). reflexivity.
Qed.

Lemma Catalog_delete_collection_removes (b b1 : Catalog.Services) n d :
  Catalog.plain n = true ->
  Catalog.serve b (DeleteCollection n) = (Resolved d, b1) ->
  ~ In n (shown (Catalog.collections b1)).
Proof.
  unfold Catalog.serve, DeleteCollection. intros Hn H.
  rewrite (route_collection_plain n Hn) in H.
  assert (E : Catalog.collections b1
              = filter (fun c => negb (Catalog.named n c))
                       (Catalog.collections b)).
  { destruct (Catalog.faults b) as [| [|] later];
      inversion H; subst; reflexivity. }
  rewrite E. unfold shown. rewrite in_map_iff.
  intros [c [Hc Hin]]. apply filter_In in Hin. destruct Hin as [_ Hneg].
  unfold Catalog.named in Hneg. rewrite Hc, String.eqb_refl in Hneg.
  discriminate Hneg.
Qed.

Lemma Catalog_collections_shrink (b : Catalog.Services) (r : Request) c :
  In c (Catalog.collections (snd (Catalog.serve b r))) ->
  In c (Catalog.collections b).
Proof.
  unfold Catalog.serve.
  destruct (Catalog.faults b) as [| [|] later]; destruct r; cbn;
    try (intros H; exact H);
    destruct (Catalog.route url); cbn;
    try (intros H; exact H);
    intros H; apply filter_In in H; exact (proj1 H).
Qed.

Lemma Catalog_listing (b b' : Catalog.Services) d :
  Catalog.serve b GetCollections = (Resolved d, b') ->
  data_collections d = Some (Catalog.collections b).
Proof.
  unfold Catalog.serve.
  destruct (Catalog.faults b) as [| [|] later]; intros H;
    inversion H; subst; reflexivity.
Qed.

(** A catalog refresh that gets its answer shows the collections there are. *)
Lemma Catalog_refresh (s : Home.State) (b b' : Catalog.Services) d :
  Catalog.serve b GetCollections = (Resolved d, b') ->
  Home.books (state (Home.fetchBooks Catalog.serve s b))
  = Catalog.collections b.
Proof.
  intros H. rewrite (fetchBooks_run _ Catalog.serve s b b' _ H). cbn.
  unfold Home.collections_or_empty. rewrite (Catalog_listing b b' d H).
  reflexivity.
Qed.

(** C2, as stated, fails: a run in which the collection delete resolves
    and the processing-service delete is rejected has the very outcome
    of a run in which the collection delete itself is rejected with the
    same error: a console entry "Delete failed:", the state variables
    untouched, nothing shown to the user. *)
Lemma handleDelete_partial_deletion_not_distinct :
  let s := Fixtures.home None in
  let partial :=
    Home.handleDelete Scripted.serve Scripted.yes "physics" s
      [Resolved Ack; Rejected Fixtures.boom] in
  let failed :=
    Home.handleDelete Scripted.serve Scripted.yes "physics" s
      [Rejected Fixtures.boom] in
  events partial
  = [Confirm (Home.deletePrompt "physics") true;
     Sent (DeleteCollection "physics");
     Settled (DeleteCollection "physics") (Resolved Ack);
     Sent (DeletePdf "physics" Fixtures.uid);
     Settled (DeletePdf "physics" Fixtures.uid) (Rejected Fixtures.boom);
     ConsoleError "Delete failed:" Fixtures.boom]
  /\ events failed
     = [Confirm (Home.deletePrompt "physics") true;
        Sent (DeleteCollection "physics");
        Settled (DeleteCollection "physics") (Rejected Fixtures.boom);
        ConsoleError "Delete failed:" Fixtures.boom]
  /\ outcome_of partial = outcome_of failed.
Proof.
  repeat split; reflexivity.
Qed.

(** C2, amended: when the collection delete resolves and the
    processing-service delete is rejected with an error, the handler
    completes normally and its only report is the console entry
    "Delete failed:" with that error, the report a rejected collection
    delete with the same error gets; the state variables are left as they
    were and no catalog refresh is issued. *)
Theorem handleDelete_partial_deletion_report
  (B : Type) (serve : B -> Request -> Outcome * B) (answer : string -> bool)
  bookName s b d e b1 b2 :
  answer (Home.deletePrompt bookName) = true ->
  serve b (DeleteCollection bookName) = (Resolved d, b1) ->
  serve b1 (DeletePdf bookName (Home.userId s)) = (Rejected e, b2) ->
  let r := Home.handleDelete serve answer bookName s b in
  outcome_of r = (Normal tt, s, [ConsoleError "Delete failed:" e])
  /\ sent (events r)
     = [DeleteCollection bookName; DeletePdf bookName (Home.userId s)]
  /\ forall b' b'',
       serve b' (DeleteCollection bookName) = (Rejected e, b'') ->
       outcome_of (Home.handleDelete serve answer bookName s b')
       = outcome_of r.
Proof.
  intros Ha H1 H2 r. subst r.
  rewrite (handleDelete_pdf_rejected B serve answer bookName s b b1 b2 d e
             Ha H1 H2).
  repeat split.
  intros b' b'' H'.
  rewrite (handleDelete_collection_rejected B serve answer bookName s b' b'' e
             Ha H').
  reflexivity.
Qed.

Lemma handleDelete_partial_deletion_report_witness :
  let s := Fixtures.home None in
  let r :=
    Home.handleDelete Scripted.serve Scripted.yes "physics" s
      [Resolved Ack; Rejected Fixtures.boom] in
  outcome_of r = (Normal tt, s, [ConsoleError "Delete failed:" Fixtures.boom])
  /\ sent (events r)
     = [DeleteCollection "physics"; DeletePdf "physics" Fixtures.uid]
  /\ forall b' b'',
       Scripted.serve b' (DeleteCollection "physics")
       = (Rejected Fixtures.boom, b'') ->
       outcome_of (Home.handleDelete Scripted.serve Scripted.yes "physics" s b')
       = outcome_of r.
Proof.
  apply (handleDelete_partial_deletion_report
           (list Outcome) Scripted.serve Scripted.yes "physics"
           (Fixtures.home None) [Resolved Ack; Rejected Fixtures.boom]
           Ack Fixtures.boom [Rejected Fixtures.boom] []);
    reflexivity.
Defined.

(** C10: in a run of [handleDelete] whose collection delete is rejected,
    the collection delete is the only request issued (no delete goes to
    the processing service, no listing is fetched) and the state
    variables, the displayed books among them, are left as they were. *)
Theorem handleDelete_collection_failure_stops
  (B : Type) (serve : B -> Request -> Outcome * B) (answer : string -> bool)
  bookName s b e :
  let r := Home.handleDelete serve answer bookName s b in
  In (Settled (DeleteCollection bookName) (Rejected e)) (events r) ->
  sent (events r) = [DeleteCollection bookName]
  /\ state r = s
  /\ Home.books (state r) = Home.books s
  /\ reported (events r) = [ConsoleError "Delete failed:" e].
Proof.
  intros r Hin. subst r.
  destruct (answer (Home.deletePrompt bookName)) eqn:Ha.
  - destruct (serve b (DeleteCollection bookName)) as [[d1 | e1] b1] eqn:H1.
    + destruct (serve b1 (DeletePdf bookName (Home.userId s)))
        as [[d2 | e2] b2] eqn:H2.
      * destruct (serve b2 GetCollections) as [o b3] eqn:H3.
        rewrite (handleDelete_both_resolved B serve answer bookName s
                   b b1 b2 b3 d1 d2 o Ha H1 H2 H3) in Hin.
        cbn in Hin. destruct o; cbn in Hin;
          repeat (destruct Hin as [Hin | Hin]; [discriminate Hin |]);
          contradiction.
      * rewrite (handleDelete_pdf_rejected B serve answer bookName s
                   b b1 b2 d1 e2 Ha H1 H2) in Hin.
        cbn in Hin.
        repeat (destruct Hin as [Hin | Hin]; [discriminate Hin |]).
        contradiction.
    + rewrite (handleDelete_collection_rejected B serve answer bookName s
                 b b1 e1 Ha H1) in *.
      cbn in Hin.
      destruct Hin as [Hin | [Hin | [Hin | [Hin | []]]]];
        try discriminate Hin.
      inversion Hin; subst e1. repeat split.
  - rewrite (handleDelete_declined B serve answer bookName s b Ha) in Hin.
    cbn in Hin. destruct Hin as [Hin | []]. discriminate Hin.
Qed.

Lemma handleDelete_collection_failure_stops_witness :
  let r :=
    Home.handleDelete Scripted.serve Scripted.yes "physics"
      (Fixtures.home None) [Rejected Fixtures.boom] in
  sent (events r) = [DeleteCollection "physics"]
  /\ state r = Fixtures.home None
  /\ Home.books (state r) = [Fixtures.physics]
  /\ reported (events r) = [ConsoleError "Delete failed:" Fixtures.boom].
Proof.
  apply (handleDelete_collection_failure_stops
           (list Outcome) Scripted.serve Scripted.yes "physics"
           (Fixtures.home None) [Rejected Fixtures.boom] Fixtures.boom).
  cbn. right. right. left. reflexivity.
Defined.

(** The backend a run of [handleDelete] leaves holds no collection that
    was not there once the collection delete had resolved. *)
Lemma handleDelete_backend_shrinks
  (answer : string -> bool) bookName s (b b1 : Catalog.Services) d c :
  answer (Home.deletePrompt bookName) = true ->
  Catalog.serve b (DeleteCollection bookName) = (Resolved d, b1) ->
  In c (Catalog.collections
          (backend (Home.handleDelete Catalog.serve answer bookName s b))) ->
  In c (Catalog.collections b1).
Proof.
  intros Ha H1.
  destruct (Catalog.serve b1 (DeletePdf bookName (Home.userId s)))
    as [[d2 | e2] b2] eqn:H2.
  - destruct (Catalog.serve b2 GetCollections) as [o b3] eqn:H3.
    rewrite (handleDelete_both_resolved _ Catalog.serve answer bookName s
               b b1 b2 b3 d d2 o Ha H1 H2 H3).
    cbn. intros Hin.
    apply (Catalog_collections_shrink b1 (DeletePdf bookName (Home.userId s))).
    rewrite H2. cbn.
    apply (Catalog_collections_shrink b2 GetCollections).
    rewrite H3. exact Hin.
  - rewrite (handleDelete_pdf_rejected _ Catalog.serve answer bookName s
               b b1 b2 d e2 Ha H1 H2).
    cbn. intros Hin.
    apply (Catalog_collections_shrink b1 (DeletePdf bookName (Home.userId s))).
    rewrite H2. exact Hin.
Qed.

(** For a book with a plain name: in every confirmed run of
    [handleDelete] the collection delete is the first request and it
    settles before anything else is sent, and a delete goes to the
    processing service only after the collection delete has resolved.
    Against the catalog services of the model, once the collection
    delete has resolved, a catalog refresh that gets its answer does not
    show the book, whether made right then or after the run. *)
Lemma handleDelete_plain_name_collection_first
  (answer : string -> bool) (bookName : string) (s : Home.State) :
  Catalog.plain bookName = true ->
  answer (Home.deletePrompt bookName) = true ->
  (forall (B : Type) (serve : B -> Request -> Outcome * B) (b : B),
     exists rest,
       events (Home.handleDelete serve answer bookName s b)
       = Confirm (Home.deletePrompt bookName) true
         :: Sent (DeleteCollection bookName)
         :: Settled (DeleteCollection bookName)
                    (fst (serve b (DeleteCollection bookName)))
         :: rest
       /\ forall n u,
            In (Sent (DeletePdf n u)) rest ->
            exists d, fst (serve b (DeleteCollection bookName)) = Resolved d)
  /\
  (forall (b b1 : Catalog.Services) d,
     Catalog.serve b (DeleteCollection bookName) = (Resolved d, b1) ->
     forall bx,
       bx = b1
       \/ bx = backend (Home.handleDelete Catalog.serve answer bookName s b) ->
       forall s' d' b',
         Catalog.serve bx GetCollections = (Resolved d', b') ->
         ~ In bookName
             (shown (Home.books (state (Home.fetchBooks Catalog.serve s' bx))))).
Proof.
  intros Hplain Ha. split.
  - intros B serve b.
    destruct (serve b (DeleteCollection bookName)) as [[d1 | e1] b1] eqn:H1.
    + destruct (serve b1 (DeletePdf bookName (Home.userId s)))
        as [[d2 | e2] b2] eqn:H2.
      * destruct (serve b2 GetCollections) as [o b3] eqn:H3.
        rewrite (handleDelete_both_resolved B serve answer bookName s
                   b b1 b2 b3 d1 d2 o Ha H1 H2 H3).
        eexists. split; [reflexivity |]. intros; exists d1; reflexivity.
      * rewrite (handleDelete_pdf_rejected B serve answer bookName s
                   b b1 b2 d1 e2 Ha H1 H2).
        eexists. split; [reflexivity |]. intros; exists d1; reflexivity.
    + rewrite (handleDelete_collection_rejected B serve answer bookName s
                 b b1 e1 Ha H1).
      eexists. split; [reflexivity |].
      intros n u [Hin | []]. discriminate Hin.
  - intros b b1 d H1 bx Hbx s' d' b' Hl.
    rewrite (Catalog_refresh s' bx b' d' Hl).
    pose proof (Catalog_delete_collection_removes b b1 bookName d Hplain H1)
      as Hgone.
    destruct Hbx as [-> | ->]; [exact Hgone |].
    intros Hin. apply Hgone. unfold shown in *.
    apply in_map_iff in Hin. destruct Hin as [c [Hc Hin]].
    apply in_map_iff. exists c. split; [exact Hc |].
    exact (handleDelete_backend_shrinks answer bookName s b b1 d c Ha H1 Hin).
Qed.

(** C5: the book is not always gone after its collection delete has
    resolved.  [handleDelete] pastes the name into the URL without
    encoding it, so for the book [C# notes] the request goes to
    [/embedding/collection/C]: what follows the [#] never leaves the
    client.  In a library that holds the books [C] and [C# notes], both
    deletes resolve, the book [C] is the one removed, and the refresh
    the handler then makes still lists [C# notes]. *)
Theorem handleDelete_unencoded_name :
  let r :=
    Home.handleDelete Catalog.serve Scripted.yes "C# notes"
      Fixtures.shelf_page Fixtures.shelf in
  events r
  = [Confirm (Home.deletePrompt "C# notes") true;
     Sent (Delete "/embedding/collection/C# notes" []);
     Settled (Delete "/embedding/collection/C# notes" []) (Resolved Ack);
     Sent (Delete "/pdf/delete/C# notes" [("user_id", Fixtures.uid)]);
     Settled (Delete "/pdf/delete/C# notes" [("user_id", Fixtures.uid)])
             (Resolved Ack);
     Sent GetCollections;
     Settled GetCollections
             (Resolved (CollectionsBody 1 (Some [Fixtures.c_sharp_notes])))]
  /\ Catalog.route "/embedding/collection/C# notes"
     = Catalog.CollectionItem "C"
  /\ shown (Catalog.collections Fixtures.shelf) = ["C"; "C# notes"]
  /\ shown (Catalog.collections (backend r)) = ["C# notes"]
  /\ shown (Home.books (state r)) = ["C# notes"].
Proof.
  repeat split; reflexivity.
Qed.

(** ** The chat page *)

Section ChatRuns.
Variable B : Type.
Variable serve : B -> Request -> Outcome * B.
Variable answer : string -> bool.

Lemma handleSend_guarded (s : Chat.State) (b : B) :
  Js.truthy (Js.trim (Chat.input s)) = false \/ Js.truthy (Chat.userId s) = false ->
  Chat.handleSend serve s b = mkRun (Normal tt) s b [PreventDefault] [].
Proof.
  intros H. unfold Chat.handleSend. run_handler.
  destruct H as [H | H]; rewrite H.
  - reflexivity.
  - rewrite orb_true_r. reflexivity.
Qed.

Lemma handleSend_rejected (s : Chat.State) (b b1 : B) (e : JsError) :
  Js.truthy (Js.trim (Chat.input s)) = true ->
  Js.truthy (Chat.userId s) = true ->
  serve b (turn s) = (Rejected e, b1) ->
  Chat.handleSend serve s b
  = mkRun (Normal tt)
      (Chat.mkState (Chat.userId s)
         (Chat.messages s
            ++ [Chat.mkMessage Chat.user (Some (Chat.input s)) None;
                Chat.failureNote])
         "" false (Chat.collections s) (Chat.selectedCollection s))
      b1
      [PreventDefault; Sent (turn s); Settled (turn s) (Rejected e);
       ConsoleError "Chat failed:" e]
      [(turn s, sending s)].
Proof.
  intros Hi Hu H1. unfold turn in *; unfold Chat.handleSend. run_handler.
  rewrite Hi, Hu. run_handler. settle H1.
  unfold Chat.setLoading, Chat.setMessages, Chat.setInput. cbn.
  rewrite <- app_assoc. reflexivity.
Qed.

Lemma handleSend_resolved (s : Chat.State) (b b1 : B) (d : Data) :
  Js.truthy (Js.trim (Chat.input s)) = true ->
  Js.truthy (Chat.userId s) = true ->
  serve b (turn s) = (Resolved d, b1) ->
  Chat.handleSend serve s b
  = mkRun (Normal tt)
      (Chat.mkState (Chat.userId s)
         (Chat.messages s
            ++ [Chat.mkMessage Chat.user (Some (Chat.input s)) None;
                Chat.mkMessage Chat.assistant (data_response d)
                               (data_artifacts d)])
         "" false (Chat.collections s) (Chat.selectedCollection s))
      b1
      [PreventDefault; Sent (turn s); Settled (turn s) (Resolved d)]
      [(turn s, sending s)].
Proof.
  intros Hi Hu H1. unfold turn in *; unfold Chat.handleSend. run_handler.
  rewrite Hi, Hu. run_handler. settle H1.
  unfold Chat.setLoading, Chat.setMessages, Chat.setInput. cbn.
  rewrite <- app_assoc. reflexivity.
Qed.

Lemma handleClearSession_declined (s : Chat.State) (b : B) :
  answer "Clear chat history?" = false ->
  Chat.handleClearSession serve answer s b
  = mkRun (Normal tt) s b [Confirm "Clear chat history?" false] [].
Proof.
  intros Ha. unfold Chat.handleClearSession. run_handler.
  rewrite Ha. reflexivity.
Qed.

Lemma handleClearSession_settled (s : Chat.State) (b b1 : B) (o : Outcome) :
  answer "Clear chat history?" = true ->
  serve b (DeleteAgentSession (Chat.userId s) (Chat.userId s)) = (o, b1) ->
  Chat.handleClearSession serve answer s b
  = mkRun (Normal tt)
      (match o with
       | Resolved _ => Chat.setMessages (fun _ => []) s
       | Rejected _ => s
       end)
      b1
      (Confirm "Clear chat history?" true
       :: Sent (DeleteAgentSession (Chat.userId s) (Chat.userId s))
       :: Settled (DeleteAgentSession (Chat.userId s) (Chat.userId s)) o
       :: match o with
          | Resolved _ => []
          | Rejected e => [ConsoleError "Failed to clear session:" e]
          end)
      [(DeleteAgentSession (Chat.userId s) (Chat.userId s), s)].
Proof.
  intros Ha H1. unfold Chat.handleClearSession. run_handler.
  rewrite Ha. cbn. settle H1. destruct o; reflexivity.
Qed.

End ChatRuns.

(** C3, as stated, fails: when the session-deletion request is rejected,
    the handler only logs the failure; the transcript is kept. *)
Lemma handleClearSession_failure_keeps_transcript :
  let s := Fixtures.chat "" None in
  let r :=
    Chat.handleClearSession Scripted.serve Scripted.yes s
      [Rejected Fixtures.boom] in
  events r
  = [Confirm "Clear chat history?" true;
     Sent (DeleteAgentSession Fixtures.uid Fixtures.uid);
     Settled (DeleteAgentSession Fixtures.uid Fixtures.uid)
             (Rejected Fixtures.boom);
     ConsoleError "Failed to clear session:" Fixtures.boom]
  /\ Chat.messages (state r) = [Fixtures.hello]
  /\ Chat.messages (state r) <> [].
Proof.
  repeat split. discriminate.
Qed.

(** C3, amended: in a confirmed run of [handleClearSession], once the
    session-deletion request has settled the transcript is empty if the
    request resolved; if it was rejected the transcript is as it was and
    the failure is logged to the console. *)
Theorem handleClearSession_transcript
  (B : Type) (serve : B -> Request -> Outcome * B) (answer : string -> bool)
  s b o b1 :
  answer "Clear chat history?" = true ->
  serve b (DeleteAgentSession (Chat.userId s) (Chat.userId s)) = (o, b1) ->
  let r := Chat.handleClearSession serve answer s b in
  match o with
  | Resolved _ =>
      Chat.messages (state r) = [] /\ reported (events r) = []
  | Rejected e =>
      Chat.messages (state r) = Chat.messages s
      /\ reported (events r) = [ConsoleError "Failed to clear session:" e]
  end.
Proof.
  intros Ha H1 r. subst r.
  rewrite (handleClearSession_settled B serve answer s b b1 o Ha H1).
  destruct o; split; reflexivity.
Qed.

Lemma handleClearSession_transcript_witness :
  let s := Fixtures.chat "" None in
  (Chat.messages
     (state (Chat.handleClearSession Scripted.serve Scripted.yes s
               [Resolved Ack])) = []
   /\ reported
        (events (Chat.handleClearSession Scripted.serve Scripted.yes s
                   [Resolved Ack])) = [])
  /\ (Chat.messages
        (state (Chat.handleClearSession Scripted.serve Scripted.yes s
                  [Rejected Fixtures.boom])) = [Fixtures.hello]
      /\ reported
           (events (Chat.handleClearSession Scripted.serve Scripted.yes s
                      [Rejected Fixtures.boom]))
         = [ConsoleError "Failed to clear session:" Fixtures.boom]).
Proof.
  split.
  - apply (handleClearSession_transcript
             (list Outcome) Scripted.serve Scripted.yes
             (Fixtures.chat "" None) [Resolved Ack] (Resolved Ack) []);
      reflexivity.
  - apply (handleClearSession_transcript
             (list Outcome) Scripted.serve Scripted.yes
             (Fixtures.chat "" None) [Rejected Fixtures.boom]
             (Rejected Fixtures.boom) []);
      reflexivity.
Defined.

(** C4: in a run of [handleSend] whose chat request, carrying the text
    X, is rejected, X is the typed text; while that request was in
    flight, the one request of the run, the transcript already was the
    earlier transcript followed by the user message X; and the
    transcript the run leaves is that one, the user message kept,
    followed by the one system note of the failure; no assistant
    message is added. *)
Theorem handleSend_failure_transcript
  (B : Type) (serve : B -> Request -> Outcome * B) s b uid sid X db e :
  let r := Chat.handleSend serve s b in
  In (Settled (PostAgentChat uid sid X db) (Rejected e)) (events r) ->
  X = Chat.input s
  /\ X <> ""
  /\ map fst (inflight r) = [PostAgentChat uid sid X db]
  /\ map (fun p => Chat.messages (snd p)) (inflight r)
     = [(Chat.messages s ++ [Chat.mkMessage Chat.user (Some X) None])%list]
  /\ Chat.messages (state r)
     = (Chat.messages s
        ++ [Chat.mkMessage Chat.user (Some X) None;
            Chat.mkMessage Chat.system
              (Some "Error: Failed to get response from agent.") None])%list.
Proof.
  intros r Hin. subst r.
  destruct (Js.truthy (Js.trim (Chat.input s))) eqn:Hi.
  - destruct (Js.truthy (Chat.userId s)) eqn:Hu.
    + destruct (serve b (turn s)) as [[d | e1] b1] eqn:H1.
      * rewrite (handleSend_resolved B serve s b b1 d Hi Hu H1) in Hin.
        cbn in Hin.
        repeat (destruct Hin as [Hin | Hin]; [discriminate Hin |]).
        contradiction.
      * rewrite (handleSend_rejected B serve s b b1 e1 Hi Hu H1) in *.
        cbn in Hin.
        destruct Hin as [Hin | [Hin | [Hin | [Hin | []]]]];
          try discriminate Hin.
        inversion Hin; subst. repeat split.
        intros E. rewrite E in Hi. discriminate Hi.
    + rewrite (handleSend_guarded B serve s b (or_intror Hu)) in Hin.
      cbn in Hin. destruct Hin as [Hin | []]. discriminate Hin.
  - rewrite (handleSend_guarded B serve s b (or_introl Hi)) in Hin.
    cbn in Hin. destruct Hin as [Hin | []]. discriminate Hin.
Qed.

Lemma handleSend_failure_transcript_witness :
  let r :=
    Chat.handleSend Scripted.serve
      (Fixtures.chat "What is a pole?" (Some "physics"))
      [Rejected Fixtures.boom] in
  "What is a pole?" = "What is a pole?"
  /\ "What is a pole?" <> ""
  /\ map fst (inflight r)
     = [PostAgentChat Fixtures.uid Fixtures.uid "What is a pole?"
                      (Some "physics")]
  /\ map (fun p => Chat.messages (snd p)) (inflight r)
     = [[Fixtures.hello;
         Chat.mkMessage Chat.user (Some "What is a pole?") None]]
  /\ Chat.messages (state r)
     = [Fixtures.hello;
        Chat.mkMessage Chat.user (Some "What is a pole?") None;
        Chat.mkMessage Chat.system
          (Some "Error: Failed to get response from agent.") None].
Proof.
  apply (handleSend_failure_transcript
           (list Outcome) Scripted.serve
           (Fixtures.chat "What is a pole?" (Some "physics"))
           [Rejected Fixtures.boom]
           Fixtures.uid Fixtures.uid "What is a pole?" (Some "physics")
           Fixtures.boom).
  cbn. right. right. left. reflexivity.
Defined.

(** C8: a send that passes the guard issues exactly one request, the
    chat request whose [db_name] is the selected collection: the name of
    the collection when one is selected, [null] when none is. *)
Theorem handleSend_db_name
  (B : Type) (serve : B -> Request -> Outcome * B) s b :
  Js.truthy (Js.trim (Chat.input s)) = true ->
  Js.truthy (Chat.userId s) = true ->
  sent (events (Chat.handleSend serve s b))
  = [PostAgentChat (Chat.userId s) (Chat.userId s) (Chat.input s)
                   (Chat.selectedCollection s)].
Proof.
  intros Hi Hu.
  destruct (serve b (turn s)) as [[d | e] b1] eqn:H1.
  - rewrite (handleSend_resolved B serve s b b1 d Hi Hu H1). reflexivity.
  - rewrite (handleSend_rejected B serve s b b1 e Hi Hu H1). reflexivity.
Qed.

Lemma handleSend_db_name_witness :
  sent (events (Chat.handleSend Scripted.serve
                  (Fixtures.chat "What is a pole?" (Some "bookA"))
                  [Resolved (ChatBody (Some "A root of the denominator.") None)]))
  = [PostAgentChat Fixtures.uid Fixtures.uid "What is a pole?" (Some "bookA")]
  /\ sent (events (Chat.handleSend Scripted.serve
                     (Fixtures.chat "What is a pole?" None)
                     [Rejected Fixtures.boom]))
     = [PostAgentChat Fixtures.uid Fixtures.uid "What is a pole?" None].
Proof.
  split.
  - apply (handleSend_db_name (list Outcome) Scripted.serve
             (Fixtures.chat "What is a pole?" (Some "bookA"))
             [Resolved (ChatBody (Some "A root of the denominator.") None)]);
      reflexivity.
  - apply (handleSend_db_name (list Outcome) Scripted.serve
             (Fixtures.chat "What is a pole?" None)
             [Rejected Fixtures.boom]);
      reflexivity.
Defined.

(** C9: a send whose text is empty or made of white space only, or that
    comes before the identity is available, changes nothing: the state
    variables (transcript and input among them) and the backend are as
    they were, and no request is issued. *)
Theorem handleSend_rejected_is_noop
  (B : Type) (serve : B -> Request -> Outcome * B) s b :
  whitespace_only (Chat.input s) = true \/ Chat.userId s = "" ->
  let r := Chat.handleSend serve s b in
  state r = s
  /\ Chat.messages (state r) = Chat.messages s
  /\ Chat.input (state r) = Chat.input s
  /\ backend r = b
  /\ sent (events r) = []
  /\ completion r = Normal tt.
Proof.
  intros H r. subst r.
  rewrite (handleSend_guarded B serve s b).
  - repeat split.
  - destruct H as [H | H].
    + left. rewrite (trim_whitespace_only _ H). reflexivity.
    + right. apply truthy_empty. exact H.
Qed.

Lemma handleSend_rejected_is_noop_witness :
  let blank := Fixtures.chat "   " None in
  let anonymous :=
    Chat.mkState useAuth.initialUserId [Fixtures.hello] "What is a pole?"
                 false [] None in
  (state (Chat.handleSend Scripted.serve blank [Resolved Ack]) = blank
   /\ sent (events (Chat.handleSend Scripted.serve blank [Resolved Ack])) = [])
  /\ (state (Chat.handleSend Scripted.serve anonymous [Resolved Ack])
      = anonymous
      /\ sent (events (Chat.handleSend Scripted.serve anonymous [Resolved Ack]))
         = []).
Proof.
  intros blank anonymous. split.
  - destruct (handleSend_rejected_is_noop
                (list Outcome) Scripted.serve blank [Resolved Ack]
                (or_introl eq_refl))
      as (Hs & _ & _ & _ & Hr & _).
    split; assumption.
  - destruct (handleSend_rejected_is_noop
                (list Outcome) Scripted.serve anonymous [Resolved Ack]
                (or_intror eq_refl))
      as (Hs & _ & _ & _ & Hr & _).
    split; assumption.
Defined.

(* ===================================================================== *)
(** * Further properties of the handlers *)
(* ===================================================================== *)

Lemma sent_app (t1 t2 : list Event) : sent (t1 ++ t2) = (sent t1 ++ sent t2)%list.
Proof.
  induction t1 as [| e t1 IH]; [reflexivity |].
  destruct e; simpl; rewrite IH; reflexivity.
Qed.

(** Two handlers in a row: the second starts from the state and the
    backend the first one left. *)
Lemma seq_run (B St : Type) (h1 h2 : Async B St unit) s b s1 b1 t1 p1 :
  h1 s b = mkRun (Normal tt) s1 b1 t1 p1 ->
  (h1 ;; h2)%monad s b
  = mkRun (completion (h2 s1 b1)) (state (h2 s1 b1)) (backend (h2 s1 b1))
          (t1 ++ events (h2 s1 b1)) (p1 ++ inflight (h2 s1 b1)).
Proof.
  intros H. cbn [bind Monad_Async]. unfold bindA. rewrite H.
  destruct (h2 s1 b1); reflexivity.
Qed.

(** Splits a run of [handleUpload] by its guard and by the outcomes of
    its requests. *)
Ltac upload_cases B serve s b :=
  let file := fresh "file" in
  let Hf := fresh "Hf" in
  let Hu := fresh "Hu" in
  let H1 := fresh "H1" in
  let H2 := fresh "H2" in
  let H3 := fresh "H3" in
  let d1 := fresh "d1" in
  let d2 := fresh "d2" in
  let e := fresh "e" in
  let o := fresh "o" in
  let b1 := fresh "b1" in
  let b2 := fresh "b2" in
  let b3 := fresh "b3" in
  destruct (Home.selectedFile s) as [file |] eqn:Hf;
  [ destruct (Js.truthy (Home.userId s)) eqn:Hu;
    [ destruct (serve b (PostPdfUpload file (Home.userId s)))
        as [[d1 | e] b1] eqn:H1;
      [ destruct (serve b1 (PostIndexBook (Js.replace ".pdf" "" (name file))
                                          (Home.userId s) false))
          as [[d2 | e] b2] eqn:H2;
        [ destruct (serve b2 GetCollections) as [o b3] eqn:H3;
          rewrite (handleUpload_indexed B serve s b file d1 d2 o b1 b2 b3
                     Hf Hu H1 H2 H3)
        | rewrite (handleUpload_index_rejected B serve s b file d1 e b1 b2
                     Hf Hu H1 H2) ]
      | rewrite (handleUpload_upload_rejected B serve s b file e b1
                   Hf Hu H1) ]
    | rewrite (handleUpload_no_identity B serve s b
                 (proj1 (truthy_empty _) Hu)) ]
  | rewrite (handleUpload_no_file B serve s b Hf) ].

(** ** Ingestion *)

(** X1: a catalog refresh never throws and always ends with [loading]
    off.  If the listing resolves, the displayed books become the
    [collections] of the body, or the empty list when the body has none;
    if it is rejected, the displayed books stay and the failure is only
    logged.  Nothing else of the state changes. *)
Theorem fetchBooks_effect
  (B : Type) (serve : B -> Request -> Outcome * B) s b :
  let r := Home.fetchBooks serve s b in
  completion r = Normal tt
  /\ Home.loading (state r) = false
  /\ Home.books (state r)
     = match fst (serve b GetCollections) with
       | Resolved (CollectionsBody _ (Some cs)) => cs
       | Resolved _ => []
       | Rejected _ => Home.books s
       end
  /\ reported (events r)
     = match fst (serve b GetCollections) with
       | Resolved _ => []
       | Rejected e => [ConsoleError "Failed to fetch books:" e]
       end
  /\ sent (events r) = [GetCollections]
  /\ Home.userId (state r) = Home.userId s
  /\ Home.isUploadModalOpen (state r) = Home.isUploadModalOpen s
  /\ Home.uploading (state r) = Home.uploading s
  /\ Home.selectedFile (state r) = Home.selectedFile s.
Proof.
  intros r. subst r.
  destruct (serve b GetCollections) as [o b'] eqn:H.
  rewrite (fetchBooks_run B serve s b b' o H).
  destruct o as [[| total [cs |] | rsp arts] | e]; repeat split.
Qed.

(** X2: a rejected upload ends the ingestion: the upload is the only
    request of the run (nothing is indexed, no listing is fetched), the
    user gets the alert "Upload failed: " with the error's message, and
    the dialog, the selected file and the displayed books are as before,
    with [uploading] off. *)
Theorem handleUpload_upload_failure_is_terminal
  (B : Type) (serve : B -> Request -> Outcome * B) s b file e :
  Home.selectedFile s = Some file ->
  Js.truthy (Home.userId s) = true ->
  fst (serve b (PostPdfUpload file (Home.userId s))) = Rejected e ->
  let r := Home.handleUpload serve s b in
  sent (events r) = [PostPdfUpload file (Home.userId s)]
  /\ reported (events r)
     = [ConsoleError "Upload failed:" e;
        Alert ("Upload failed: " ++ message e)]
  /\ state r = Home.setUploading false s
  /\ completion r = Normal tt.
Proof.
  intros Hf Hu H1 r. subst r.
  destruct (serve b (PostPdfUpload file (Home.userId s))) as [o b1] eqn:E.
  cbn in H1. subst o.
  rewrite (handleUpload_upload_rejected B serve s b file e b1 Hf Hu E).
  repeat split.
Qed.

Lemma handleUpload_upload_failure_is_terminal_witness :
  let s := Fixtures.home (Some Fixtures.physics_pdf) in
  let r := Home.handleUpload Scripted.serve s [Rejected Fixtures.boom] in
  sent (events r) = [PostPdfUpload Fixtures.physics_pdf Fixtures.uid]
  /\ reported (events r)
     = [ConsoleError "Upload failed:" Fixtures.boom;
        Alert ("Upload failed: " ++ message Fixtures.boom)]
  /\ state r = Home.setUploading false s
  /\ completion r = Normal tt.
Proof.
  apply (handleUpload_upload_failure_is_terminal
           (list Outcome) Scripted.serve
           (Fixtures.home (Some Fixtures.physics_pdf))
           [Rejected Fixtures.boom] Fixtures.physics_pdf Fixtures.boom);
    reflexivity.
Defined.

(** X3: when upload and indexing both resolve, the handler closes the
    dialog, clears the selected file and fetches the listing: the
    requests of the run are the upload, the index request and the
    listing, in this order.  The displayed books follow the listing if
    it resolves and stay as they were if it is rejected; in neither case
    is an alert shown. *)
Theorem handleUpload_success_refreshes
  (B : Type) (serve : B -> Request -> Outcome * B) s b file d1 d2 b1 b2 :
  Home.selectedFile s = Some file ->
  Js.truthy (Home.userId s) = true ->
  serve b (PostPdfUpload file (Home.userId s)) = (Resolved d1, b1) ->
  serve b1 (PostIndexBook (Js.replace ".pdf" "" (name file))
                          (Home.userId s) false) = (Resolved d2, b2) ->
  let r := Home.handleUpload serve s b in
  sent (events r)
  = [PostPdfUpload file (Home.userId s);
     PostIndexBook (Js.replace ".pdf" "" (name file)) (Home.userId s) false;
     GetCollections]
  /\ Home.isUploadModalOpen (state r) = false
  /\ Home.selectedFile (state r) = None
  /\ Home.uploading (state r) = false
  /\ Home.loading (state r) = false
  /\ Home.books (state r)
     = match fst (serve b2 GetCollections) with
       | Resolved d => Home.collections_or_empty d
       | Rejected _ => Home.books s
       end
  /\ (forall msg, ~ In (Alert msg) (events r)).
Proof.
  intros Hf Hu H1 H2 r. subst r.
  destruct (serve b2 GetCollections) as [o b3] eqn:H3.
  rewrite (handleUpload_indexed B serve s b file d1 d2 o b1 b2 b3
             Hf Hu H1 H2 H3).
  destruct o as [d | e]; repeat split;
    intros msg Hin; cbn in Hin;
    repeat (destruct Hin as [Hin | Hin]; [discriminate Hin |]);
    contradiction.
Qed.

Lemma handleUpload_success_refreshes_witness :
  let s := Fixtures.home (Some Fixtures.physics_pdf) in
  let listing :=
    Resolved (CollectionsBody 2 (Some [Fixtures.physics; Fixtures.algebra])) in
  let r :=
    Home.handleUpload Scripted.serve s [Resolved Ack; Resolved Ack; listing] in
  sent (events r)
  = [PostPdfUpload Fixtures.physics_pdf Fixtures.uid;
     PostIndexBook "physics" Fixtures.uid false;
     GetCollections]
  /\ Home.isUploadModalOpen (state r) = false
  /\ Home.selectedFile (state r) = None
  /\ Home.uploading (state r) = false
  /\ Home.loading (state r) = false
  /\ Home.books (state r) = [Fixtures.physics; Fixtures.algebra]
  /\ (forall msg, ~ In (Alert msg) (events r)).
Proof.
  intros s listing.
  apply (handleUpload_success_refreshes
           (list Outcome) Scripted.serve s
           [Resolved Ack; Resolved Ack; listing]
           Fixtures.physics_pdf Ack Ack
           [Resolved Ack; listing] [listing]);
    reflexivity.
Defined.

(** X4: whatever the backend does, [handleUpload] completes normally and
    its requests are an initial part of: upload, index, listing.  So the
    index request is never sent without the upload before it, nor the
    listing without both.  A run that sent anything leaves [uploading]
    off, and no run changes the identity. *)
Theorem handleUpload_request_order
  (B : Type) (serve : B -> Request -> Outcome * B) s b file :
  Home.selectedFile s = Some file ->
  let r := Home.handleUpload serve s b in
  completion r = Normal tt
  /\ (exists k,
        sent (events r)
        = firstn k
            [PostPdfUpload file (Home.userId s);
             PostIndexBook (Js.replace ".pdf" "" (name file))
                           (Home.userId s) false;
             GetCollections])
  /\ (sent (events r) <> [] -> Home.uploading (state r) = false)
  /\ Home.userId (state r) = Home.userId s.
Proof.
  intros Hsel r. subst r.
  upload_cases B serve s b; try discriminate Hsel;
    injection Hsel as <-.
  - destruct o; repeat split; try (exists 3; reflexivity).
  - repeat split. exists 2; reflexivity.
  - repeat split. exists 1; reflexivity.
  - repeat split.
    + exists 0; reflexivity.
    + intros H; contradiction H; reflexivity.
Qed.

Lemma handleUpload_request_order_witness :
  let s := Fixtures.home (Some Fixtures.physics_pdf) in
  let r :=
    Home.handleUpload Scripted.serve s [Resolved Ack; Rejected Fixtures.boom] in
  completion r = Normal tt
  /\ (exists k,
        sent (events r)
        = firstn k
            [PostPdfUpload Fixtures.physics_pdf Fixtures.uid;
             PostIndexBook "physics" Fixtures.uid false;
             GetCollections])
  /\ (sent (events r) <> [] -> Home.uploading (state r) = false)
  /\ Home.userId (state r) = Fixtures.uid.
Proof.
  intros s.
  apply (handleUpload_request_order
           (list Outcome) Scripted.serve s
           [Resolved Ack; Rejected Fixtures.boom] Fixtures.physics_pdf).
  reflexivity.
Defined.

(** A run that passes the guard starts with the upload of the selected
    file; if the upload resolves, the index request follows, with the
    name the handler computes. *)
Lemma handleUpload_sends_upload_first
  (B : Type) (serve : B -> Request -> Outcome * B) s b file :
  Home.selectedFile s = Some file ->
  Js.truthy (Home.userId s) = true ->
  exists rest,
    sent (events (Home.handleUpload serve s b))
    = PostPdfUpload file (Home.userId s) :: rest.
Proof.
  intros Hsel Hid.
  upload_cases B serve s b; try discriminate Hsel;
    try (rewrite Hid in *; discriminate);
    injection Hsel as <-; eexists; reflexivity.
Qed.

Lemma handleUpload_index_name
  (B : Type) (serve : B -> Request -> Outcome * B) s b file d1 b1 :
  Home.selectedFile s = Some file ->
  Js.truthy (Home.userId s) = true ->
  serve b (PostPdfUpload file (Home.userId s)) = (Resolved d1, b1) ->
  exists rest,
    sent (events (Home.handleUpload serve s b))
    = PostPdfUpload file (Home.userId s)
      :: PostIndexBook (Js.replace ".pdf" "" (name file)) (Home.userId s) false
      :: rest.
Proof.
  intros Hf Hu H1.
  destruct (serve b1 (PostIndexBook (Js.replace ".pdf" "" (name file))
                                    (Home.userId s) false))
    as [[d2 | e] b2] eqn:H2.
  - destruct (serve b2 GetCollections) as [o b3] eqn:H3.
    rewrite (handleUpload_indexed B serve s b file d1 d2 o b1 b2 b3
               Hf Hu H1 H2 H3).
    eexists. reflexivity.
  - rewrite (handleUpload_index_rejected B serve s b file d1 e b1 b2
               Hf Hu H1 H2).
    eexists. reflexivity.
Qed.

Lemma replace_absent (pat rep s : string) :
  includes pat s = false -> Js.replace pat rep s = s.
Proof.
  induction s as [| c s IH]; intros H.
  - cbn [includes] in H. apply orb_false_iff in H. destruct H as [Hp _].
    cbn [Js.replace]. rewrite Hp. reflexivity.
  - cbn [includes] in H. apply orb_false_iff in H. destruct H as [Hp Hs].
    cbn [Js.replace]. rewrite Hp, (IH Hs). reflexivity.
Qed.

(** X5: before the identity is available ([userId] still empty) the
    upload handler does nothing, even with a file selected: no request,
    no report, the state as it was. *)
Theorem handleUpload_without_identity_is_noop
  (B : Type) (serve : B -> Request -> Outcome * B) s b :
  Home.userId s = useAuth.initialUserId ->
  let r := Home.handleUpload serve s b in
  state r = s /\ backend r = b /\ events r = [] /\ completion r = Normal tt.
Proof.
  intros H r. subst r.
  rewrite (handleUpload_no_identity B serve s b H). repeat split.
Qed.

Lemma handleUpload_without_identity_is_noop_witness :
  let s :=
    Home.mkState useAuth.initialUserId [] false true false
                 (Some Fixtures.physics_pdf) in
  let r := Home.handleUpload Scripted.serve s [Resolved Ack] in
  state r = s /\ backend r = [Resolved Ack] /\ events r = []
  /\ completion r = Normal tt.
Proof.
  intros s.
  apply (handleUpload_without_identity_is_noop
           (list Outcome) Scripted.serve s [Resolved Ack]).
  reflexivity.
Defined.

(** X6: after a rejected upload the file is still selected, so invoking
    the handler again uploads the same file again: the two runs in a
    row start with two upload requests for it. *)
Theorem handleUpload_retry_after_failure
  (B : Type) (serve : B -> Request -> Outcome * B) s b file e b1 :
  Home.selectedFile s = Some file ->
  Js.truthy (Home.userId s) = true ->
  serve b (PostPdfUpload file (Home.userId s)) = (Rejected e, b1) ->
  let r := (Home.handleUpload serve ;; Home.handleUpload serve)%monad s b in
  exists rest,
    sent (events r)
    = PostPdfUpload file (Home.userId s)
      :: PostPdfUpload file (Home.userId s) :: rest.
Proof.
  intros Hf Hu H1 r. subst r.
  rewrite (seq_run B Home.State _ _ s b _ _ _ _
             (handleUpload_upload_rejected B serve s b file e b1 Hf Hu H1)).
  cbn [events].
  destruct (handleUpload_sends_upload_first B serve
              (Home.setUploading false s) b1 file Hf Hu) as [rest Hrest].
  exists rest. rewrite sent_app, Hrest. reflexivity.
Qed.

Lemma handleUpload_retry_after_failure_witness :
  let s := Fixtures.home (Some Fixtures.physics_pdf) in
  let r :=
    (Home.handleUpload Scripted.serve ;; Home.handleUpload Scripted.serve)%monad
      s [Rejected Fixtures.boom; Resolved Ack; Resolved Ack] in
  exists rest,
    sent (events r)
    = PostPdfUpload Fixtures.physics_pdf Fixtures.uid
      :: PostPdfUpload Fixtures.physics_pdf Fixtures.uid :: rest.
Proof.
  intros s.
  apply (handleUpload_retry_after_failure
           (list Outcome) Scripted.serve s
           [Rejected Fixtures.boom; Resolved Ack; Resolved Ack]
           Fixtures.physics_pdf Fixtures.boom [Resolved Ack; Resolved Ack]);
    reflexivity.
Defined.

(** X8: for a file named by a base without dots followed by [.pdf],
    the index request that follows a resolved upload names the base. *)
Theorem handleUpload_indexes_base_name
  (B : Type) (serve : B -> Request -> Outcome * B) s b file base d1 b1 :
  Home.selectedFile s = Some file ->
  Js.truthy (Home.userId s) = true ->
  name file = base ++ ".pdf" ->
  Spec.has_dot base = false ->
  serve b (PostPdfUpload file (Home.userId s)) = (Resolved d1, b1) ->
  exists rest,
    sent (events (Home.handleUpload serve s b))
    = PostPdfUpload file (Home.userId s)
      :: PostIndexBook base (Home.userId s) false :: rest.
Proof.
  intros Hf Hu Hn Hd H1.
  destruct (handleUpload_index_name B serve s b file d1 b1 Hf Hu H1)
    as [rest Hrest].
  exists rest. rewrite Hrest, Hn, (replace_pdf_plain base Hd). reflexivity.
Qed.

Lemma handleUpload_indexes_base_name_witness :
  exists rest,
    sent (events (Home.handleUpload Scripted.serve
                    (Fixtures.home (Some Fixtures.physics_pdf))
                    [Resolved Ack; Resolved Ack]))
    = PostPdfUpload Fixtures.physics_pdf Fixtures.uid
      :: PostIndexBook "physics" Fixtures.uid false :: rest.
Proof.
  apply (handleUpload_indexes_base_name
           (list Outcome) Scripted.serve
           (Fixtures.home (Some Fixtures.physics_pdf))
           [Resolved Ack; Resolved Ack]
           Fixtures.physics_pdf "physics" Ack [Resolved Ack]);
    reflexivity.
Defined.

(** X9: a file whose name does not contain the text [.pdf] (another
    extension, or [.PDF] in capitals) is indexed under its whole name,
    extension included. *)
Theorem handleUpload_name_without_pdf_sent_whole
  (B : Type) (serve : B -> Request -> Outcome * B) s b file d1 b1 :
  Home.selectedFile s = Some file ->
  Js.truthy (Home.userId s) = true ->
  includes ".pdf" (name file) = false ->
  serve b (PostPdfUpload file (Home.userId s)) = (Resolved d1, b1) ->
  exists rest,
    sent (events (Home.handleUpload serve s b))
    = PostPdfUpload file (Home.userId s)
      :: PostIndexBook (name file) (Home.userId s) false :: rest.
Proof.
  intros Hf Hu Hn H1.
  destruct (handleUpload_index_name B serve s b file d1 b1 Hf Hu H1)
    as [rest Hrest].
  exists rest. rewrite Hrest, (replace_absent ".pdf" "" (name file) Hn).
  reflexivity.
Qed.

Lemma handleUpload_name_without_pdf_sent_whole_witness :
  exists rest,
    sent (events (Home.handleUpload Scripted.serve
                    (Fixtures.home (Some Fixtures.upper_pdf))
                    [Resolved Ack; Resolved Ack]))
    = PostPdfUpload Fixtures.upper_pdf Fixtures.uid
      :: PostIndexBook "Lecture.PDF" Fixtures.uid false :: rest.
Proof.
  apply (handleUpload_name_without_pdf_sent_whole
           (list Outcome) Scripted.serve
           (Fixtures.home (Some Fixtures.upper_pdf))
           [Resolved Ack; Resolved Ack]
           Fixtures.upper_pdf Ack [Resolved Ack]);
    reflexivity.
Defined.

(** ** Deletion *)

(** Shows that an event of some kind is not in an explicit list. *)
Ltac absent_event :=
  let H := fresh "H" in
  intros ? H; cbn in H;
  repeat (destruct H as [H | H]; [discriminate H |]);
  contradiction.

(** Splits a run of [handleDelete] by the user's answer and by the
    outcomes of its requests. *)
Ltac delete_cases B serve answer bookName s b :=
  let Ha := fresh "Ha" in
  let H1 := fresh "H1" in
  let H2 := fresh "H2" in
  let H3 := fresh "H3" in
  let d1 := fresh "d1" in
  let d2 := fresh "d2" in
  let e := fresh "e" in
  let o := fresh "o" in
  let b1 := fresh "b1" in
  let b2 := fresh "b2" in
  let b3 := fresh "b3" in
  destruct (answer (Home.deletePrompt bookName)) eqn:Ha;
  [ destruct (serve b (DeleteCollection bookName)) as [[d1 | e] b1] eqn:H1;
    [ destruct (serve b1 (DeletePdf bookName (Home.userId s)))
        as [[d2 | e] b2] eqn:H2;
      [ destruct (serve b2 GetCollections) as [o b3] eqn:H3;
        rewrite (handleDelete_both_resolved B serve answer bookName s
                   b b1 b2 b3 d1 d2 o Ha H1 H2 H3)
      | rewrite (handleDelete_pdf_rejected B serve answer bookName s
                   b b1 b2 d1 e Ha H1 H2) ]
    | rewrite (handleDelete_collection_rejected B serve answer bookName s
                 b b1 e Ha H1) ]
  | rewrite (handleDelete_declined B serve answer bookName s b Ha) ].

(** X10: when the user declines the dialog, the delete handler stops
    there: no request is issued, nothing is reported, and the state and
    the backend are as they were. *)
Theorem handleDelete_declined_is_noop
  (B : Type) (serve : B -> Request -> Outcome * B) (answer : string -> bool)
  bookName s b :
  answer (Home.deletePrompt bookName) = false ->
  let r := Home.handleDelete serve answer bookName s b in
  events r = [Confirm (Home.deletePrompt bookName) false]
  /\ sent (events r) = []
  /\ reported (events r) = []
  /\ state r = s
  /\ backend r = b.
Proof.
  intros Ha r. subst r.
  rewrite (handleDelete_declined B serve answer bookName s b Ha).
  repeat split.
Qed.

Lemma handleDelete_declined_is_noop_witness :
  let decline := fun _ : string => false in
  let r :=
    Home.handleDelete Scripted.serve decline "physics" (Fixtures.home None)
      [Resolved Ack] in
  events r = [Confirm (Home.deletePrompt "physics") false]
  /\ sent (events r) = []
  /\ reported (events r) = []
  /\ state r = Fixtures.home None
  /\ backend r = [Resolved Ack].
Proof.
  intros decline.
  apply (handleDelete_declined_is_noop
           (list Outcome) Scripted.serve decline "physics"
           (Fixtures.home None) [Resolved Ack]).
  reflexivity.
Defined.

(** X11: when both deletes resolve, the handler fetches the listing:
    the requests of the run are the collection delete, the
    processing-service delete for the same name and the component's
    identity, and the listing, in this order.  The displayed books
    follow the listing if it resolves and stay as they were if it is
    rejected; [loading] ends off. *)
Theorem handleDelete_success_refreshes
  (B : Type) (serve : B -> Request -> Outcome * B) (answer : string -> bool)
  bookName s b d1 d2 b1 b2 :
  answer (Home.deletePrompt bookName) = true ->
  serve b (DeleteCollection bookName) = (Resolved d1, b1) ->
  serve b1 (DeletePdf bookName (Home.userId s)) = (Resolved d2, b2) ->
  let r := Home.handleDelete serve answer bookName s b in
  sent (events r)
  = [DeleteCollection bookName; DeletePdf bookName (Home.userId s);
     GetCollections]
  /\ Home.books (state r)
     = match fst (serve b2 GetCollections) with
       | Resolved d => Home.collections_or_empty d
       | Rejected _ => Home.books s
       end
  /\ Home.loading (state r) = false
  /\ reported (events r)
     = match fst (serve b2 GetCollections) with
       | Resolved _ => []
       | Rejected e => [ConsoleError "Failed to fetch books:" e]
       end.
Proof.
  intros Ha H1 H2 r. subst r.
  destruct (serve b2 GetCollections) as [o b3] eqn:H3.
  rewrite (handleDelete_both_resolved B serve answer bookName s
             b b1 b2 b3 d1 d2 o Ha H1 H2 H3).
  destruct o; repeat split.
Qed.

Lemma handleDelete_success_refreshes_witness :
  let listing := Resolved (CollectionsBody 1 (Some [Fixtures.algebra])) in
  let r :=
    Home.handleDelete Scripted.serve Scripted.yes "physics"
      (Fixtures.home None) [Resolved Ack; Resolved Ack; listing] in
  sent (events r)
  = [DeleteCollection "physics"; DeletePdf "physics" Fixtures.uid;
     GetCollections]
  /\ Home.books (state r) = [Fixtures.algebra]
  /\ Home.loading (state r) = false
  /\ reported (events r) = [].
Proof.
  intros listing.
  apply (handleDelete_success_refreshes
           (list Outcome) Scripted.serve Scripted.yes "physics"
           (Fixtures.home None) [Resolved Ack; Resolved Ack; listing]
           Ack Ack [Resolved Ack; listing] [listing]);
    reflexivity.
Defined.

(** X12: whatever the user answers and the backend does,
    [handleDelete] completes normally, its requests are an initial part
    of: collection delete, processing-service delete, listing, it never
    shows an alert, and it leaves the identity, the upload dialog, the
    [uploading] flag and the selected file untouched. *)
Theorem handleDelete_frame
  (B : Type) (serve : B -> Request -> Outcome * B) (answer : string -> bool)
  bookName s b :
  let r := Home.handleDelete serve answer bookName s b in
  completion r = Normal tt
  /\ (exists k,
        sent (events r)
        = firstn k
            [DeleteCollection bookName; DeletePdf bookName (Home.userId s);
             GetCollections])
  /\ (forall msg, ~ In (Alert msg) (events r))
  /\ Home.userId (state r) = Home.userId s
  /\ Home.isUploadModalOpen (state r) = Home.isUploadModalOpen s
  /\ Home.uploading (state r) = Home.uploading s
  /\ Home.selectedFile (state r) = Home.selectedFile s.
Proof.
  intros r. subst r.
  delete_cases B serve answer bookName s b.
  - destruct o; repeat split; try (exists 3; reflexivity); absent_event.
  - repeat split; try (exists 2; reflexivity); absent_event.
  - repeat split; try (exists 1; reflexivity); absent_event.
  - repeat split; try (exists 0; reflexivity); absent_event.
Qed.

Lemma handleDelete_frame_witness :
  let r :=
    Home.handleDelete Scripted.serve Scripted.yes "physics"
      (Fixtures.home (Some Fixtures.physics_pdf))
      [Resolved Ack; Rejected Fixtures.boom] in
  completion r = Normal tt
  /\ sent (events r)
     = [DeleteCollection "physics"; DeletePdf "physics" Fixtures.uid]
  /\ (forall msg, ~ In (Alert msg) (events r))
  /\ Home.selectedFile (state r) = Some Fixtures.physics_pdf.
Proof.
  intros r.
  destruct (handleDelete_frame
              (list Outcome) Scripted.serve Scripted.yes "physics"
              (Fixtures.home (Some Fixtures.physics_pdf))
              [Resolved Ack; Rejected Fixtures.boom])
    as (Hc & _ & Halert & _ & _ & _ & Hfile).
  split; [exact Hc |]. split; [reflexivity |].
  split; [exact Halert | exact Hfile].
Defined.

(** ** Chat *)

Lemma trimStart_empty (s : string) :
  Js.trimStart s = "" -> whitespace_only s = true.
Proof.
  induction s as [| c s IH]; [reflexivity |].
  cbn [Js.trimStart whitespace_only].
  destruct (Js.isWhiteSpace c); [exact IH | discriminate].
Qed.

Lemma trimEnd_empty (s : string) :
  Js.trimEnd s = "" -> whitespace_only s = true.
Proof.
  induction s as [| c s IH]; [reflexivity |].
  cbn [Js.trimEnd whitespace_only].
  destruct (Js.trimEnd s); [| discriminate].
  destruct (Js.isWhiteSpace c); [intros _; exact (IH eq_refl) | discriminate].
Qed.

Lemma whitespace_only_trimStart (s : string) :
  whitespace_only (Js.trimStart s) = true -> whitespace_only s = true.
Proof.
  induction s as [| c s IH]; [reflexivity |].
  cbn [Js.trimStart].
  destruct (Js.isWhiteSpace c) eqn:Hc.
  - intros H. cbn [whitespace_only]. rewrite Hc, (IH H). reflexivity.
  - intros H. exact H.
Qed.

(** [input.trim()] is empty exactly for a text of white space only. *)
Lemma truthy_trim (s : string) :
  Js.truthy (Js.trim s) = negb (whitespace_only s).
Proof.
  destruct (whitespace_only s) eqn:Hw.
  - rewrite (trim_whitespace_only s Hw). reflexivity.
  - destruct (Js.trim s) eqn:Ht; [| reflexivity].
    unfold Js.trim in Ht.
    rewrite (whitespace_only_trimStart s (trimEnd_empty _ Ht)) in Hw.
    discriminate Hw.
Qed.

(** The run of a send that passes the guard, whatever the outcome of
    its request. *)
Lemma handleSend_settled
  (B : Type) (serve : B -> Request -> Outcome * B) s b o b1 :
  Js.truthy (Js.trim (Chat.input s)) = true ->
  Js.truthy (Chat.userId s) = true ->
  serve b (turn s) = (o, b1) ->
  Chat.handleSend serve s b
  = mkRun (Normal tt)
      (Chat.mkState (Chat.userId s)
         (Chat.messages s
            ++ [Chat.mkMessage Chat.user (Some (Chat.input s)) None;
                reply_of o])
         "" false (Chat.collections s) (Chat.selectedCollection s))
      b1
      (PreventDefault :: Sent (turn s) :: Settled (turn s) o
       :: match o with
          | Resolved _ => []
          | Rejected e => [ConsoleError "Chat failed:" e]
          end)
      [(turn s, sending s)].
Proof.
  intros Hi Hu H1. destruct o as [d | e].
  - exact (handleSend_resolved B serve s b b1 d Hi Hu H1).
  - exact (handleSend_rejected B serve s b b1 e Hi Hu H1).
Qed.

(** The requests of a send that passes the guard. *)
Lemma handleSend_requests
  (B : Type) (serve : B -> Request -> Outcome * B) s b :
  Js.truthy (Js.trim (Chat.input s)) = true ->
  Js.truthy (Chat.userId s) = true ->
  sent (events (Chat.handleSend serve s b)) = [turn s].
Proof.
  intros Hi Hu.
  destruct (serve b (turn s)) as [o b1] eqn:H1.
  rewrite (handleSend_settled B serve s b o b1 Hi Hu H1).
  destruct o; reflexivity.
Qed.

(** Splits a run of [handleSend] by its guard and by the outcome of its
    request. *)
Ltac send_cases B serve s b :=
  let Hi := fresh "Hi" in
  let Hu := fresh "Hu" in
  let H1 := fresh "H1" in
  let o := fresh "o" in
  let b1 := fresh "b1" in
  destruct (Js.truthy (Js.trim (Chat.input s))) eqn:Hi;
  [ destruct (Js.truthy (Chat.userId s)) eqn:Hu;
    [ destruct (serve b (turn s)) as [o b1] eqn:H1;
      rewrite (handleSend_settled B serve s b o b1 Hi Hu H1)
    | rewrite (handleSend_guarded B serve s b (or_intror Hu)) ]
  | rewrite (handleSend_guarded B serve s b (or_introl Hi)) ].

(** X13: in a run of [handleSend] whose chat request resolves with a
    body, the transcript the run leaves is the earlier transcript
    followed by the user message and then one assistant message that
    carries the body's [response] and its [artifacts] as they came; the
    input is cleared and [loading] is off. *)
Theorem handleSend_success_transcript
  (B : Type) (serve : B -> Request -> Outcome * B) s b req d :
  let r := Chat.handleSend serve s b in
  In (Settled req (Resolved d)) (events r) ->
  req = turn s
  /\ Chat.messages (state r)
     = (Chat.messages s
        ++ [Chat.mkMessage Chat.user (Some (Chat.input s)) None;
            Chat.mkMessage Chat.assistant (data_response d)
                           (data_artifacts d)])%list
  /\ Chat.input (state r) = ""
  /\ Chat.loading (state r) = false
  /\ reported (events r) = [].
Proof.
  intros r Hin. subst r. revert Hin.
  send_cases B serve s b; intros Hin; cbn in Hin.
  - destruct o as [d' | e]; cbn in Hin;
      repeat (destruct Hin as [Hin | Hin]; try discriminate Hin);
      try contradiction.
    injection Hin as <- <-. repeat split.
  - destruct Hin as [Hin | []]. discriminate Hin.
  - destruct Hin as [Hin | []]. discriminate Hin.
Qed.

Lemma handleSend_success_transcript_witness :
  let s := Fixtures.chat "What is a pole?" (Some "physics") in
  let body := ChatBody (Some "A root of the denominator.") (Some ["p. 12"]) in
  let r := Chat.handleSend Scripted.serve s [Resolved body] in
  turn s = turn s
  /\ Chat.messages (state r)
     = [Fixtures.hello;
        Chat.mkMessage Chat.user (Some "What is a pole?") None;
        Chat.mkMessage Chat.assistant (Some "A root of the denominator.")
                       (Some ["p. 12"])]
  /\ Chat.input (state r) = ""
  /\ Chat.loading (state r) = false
  /\ reported (events r) = [].
Proof.
  intros s body.
  apply (handleSend_success_transcript
           (list Outcome) Scripted.serve s [Resolved body] (turn s) body).
  cbn. right. right. left. reflexivity.
Defined.

(** The requests of a send, guard included. *)
Lemma handleSend_sends_when
  (B : Type) (serve : B -> Request -> Outcome * B) s b :
  sent (events (Chat.handleSend serve s b))
  = if whitespace_only (Chat.input s) || negb (Js.truthy (Chat.userId s))
    then []
    else [PostAgentChat (Chat.userId s) (Chat.userId s) (Chat.input s)
                        (Chat.selectedCollection s)].
Proof.
  send_cases B serve s b; rewrite truthy_trim in Hi;
    destruct (whitespace_only (Chat.input s)); try discriminate Hi.
  - destruct o; reflexivity.
  - reflexivity.
  - reflexivity.
Qed.

(** X14: [handleSend] issues its chat request exactly when the input has
    a character that is not white space and the identity is set; it then
    issues that one request and no other. *)
Theorem handleSend_sends_exactly_when
  (B : Type) (serve : B -> Request -> Outcome * B) s b :
  sent (events (Chat.handleSend serve s b))
  = if whitespace_only (Chat.input s) || negb (Js.truthy (Chat.userId s))
    then []
    else [PostAgentChat (Chat.userId s) (Chat.userId s) (Chat.input s)
                        (Chat.selectedCollection s)].
Proof.
  exact (handleSend_sends_when B serve s b).
Qed.

(** X15: a run of [handleSend] only ever appends to the transcript: the
    earlier messages stay in place, and the run adds either nothing (no
    request was sent) or the user message followed by one reply, the
    assistant's answer or the failure note. *)
Theorem handleSend_transcript_grows
  (B : Type) (serve : B -> Request -> Outcome * B) s b :
  let r := Chat.handleSend serve s b in
  (sent (events r) = [] /\ Chat.messages (state r) = Chat.messages s)
  \/ (sent (events r) = [turn s]
      /\ Chat.messages (state r)
         = (Chat.messages s
            ++ [Chat.mkMessage Chat.user (Some (Chat.input s)) None;
                reply_of (fst (serve b (turn s)))])%list).
Proof.
  intros r. subst r.
  send_cases B serve s b.
  - right. destruct o; split; reflexivity.
  - left. split; reflexivity.
  - left. split; reflexivity.
Qed.

(** X16: whatever the backend does, [handleSend] completes normally,
    shows no alert, and leaves the identity, the list of collections
    and the selected collection untouched; a run that sent its request
    leaves the input empty and [loading] off. *)
Theorem handleSend_frame
  (B : Type) (serve : B -> Request -> Outcome * B) s b :
  let r := Chat.handleSend serve s b in
  completion r = Normal tt
  /\ (forall msg, ~ In (Alert msg) (events r))
  /\ Chat.userId (state r) = Chat.userId s
  /\ Chat.collections (state r) = Chat.collections s
  /\ Chat.selectedCollection (state r) = Chat.selectedCollection s
  /\ (sent (events r) <> [] ->
      Chat.input (state r) = "" /\ Chat.loading (state r) = false).
Proof.
  intros r. subst r.
  send_cases B serve s b.
  - destruct o; repeat split; absent_event.
  - repeat split; try absent_event; contradiction H; reflexivity.
  - repeat split; try absent_event; contradiction H; reflexivity.
Qed.

Lemma handleSend_frame_witness :
  let s := Fixtures.chat "What is a pole?" (Some "physics") in
  let r := Chat.handleSend Scripted.serve s [Rejected Fixtures.boom] in
  completion r = Normal tt
  /\ (forall msg, ~ In (Alert msg) (events r))
  /\ Chat.selectedCollection (state r) = Some "physics"
  /\ Chat.input (state r) = ""
  /\ Chat.loading (state r) = false.
Proof.
  intros s r.
  destruct (handleSend_frame
              (list Outcome) Scripted.serve s [Rejected Fixtures.boom])
    as (Hc & Halert & _ & _ & Hsel & Hsent).
  split; [exact Hc |]. split; [exact Halert |]. split; [exact Hsel |].
  apply Hsent. discriminate.
Defined.

(** X17: submitting twice in a row sends once: the first run clears the
    input, so the second one is stopped by the guard and adds nothing to
    the requests or to the transcript. *)
Theorem handleSend_twice_sends_once
  (B : Type) (serve : B -> Request -> Outcome * B) s b :
  let once := Chat.handleSend serve s b in
  let twice := (Chat.handleSend serve ;; Chat.handleSend serve)%monad s b in
  sent (events twice) = sent (events once)
  /\ Chat.messages (state twice) = Chat.messages (state once)
  /\ backend twice = backend once.
Proof.
  intros once twice. subst once twice.
  destruct (Js.truthy (Js.trim (Chat.input s))) eqn:Hi.
  - destruct (Js.truthy (Chat.userId s)) eqn:Hu.
    + destruct (serve b (turn s)) as [o b1] eqn:H1.
      rewrite (seq_run B Chat.State _ _ s b _ _ _ _
                 (handleSend_settled B serve s b o b1 Hi Hu H1)).
      rewrite (handleSend_settled B serve s b o b1 Hi Hu H1).
      rewrite handleSend_guarded by (left; reflexivity).
      cbn [events state backend]. rewrite sent_app, app_nil_r.
      repeat split.
    + rewrite (seq_run B Chat.State _ _ s b _ _ _ _
                 (handleSend_guarded B serve s b (or_intror Hu))).
      rewrite !(handleSend_guarded B serve s b (or_intror Hu)).
      repeat split.
  - rewrite (seq_run B Chat.State _ _ s b _ _ _ _
               (handleSend_guarded B serve s b (or_introl Hi))).
    rewrite !(handleSend_guarded B serve s b (or_introl Hi)).
    repeat split.
Qed.

(** X18: two turns in a row, the user typing the second question after
    the first has settled: the two chat requests go out in the order
    asked, the second to the backend as the first left it, and the
    transcript ends with the two questions, each followed by its own
    reply. *)
Theorem handleSend_two_turns
  (B : Type) (serve : B -> Request -> Outcome * B) s b second :
  Js.truthy (Js.trim (Chat.input s)) = true ->
  Js.truthy (Js.trim second) = true ->
  Js.truthy (Chat.userId s) = true ->
  let r :=
    (Chat.handleSend serve ;; ChatPage.onInputChange B second ;;
     Chat.handleSend serve)%monad s b in
  let req1 := turn s in
  let req2 :=
    PostAgentChat (Chat.userId s) (Chat.userId s) second
                  (Chat.selectedCollection s) in
  let o1 := fst (serve b req1) in
  let o2 := fst (serve (snd (serve b req1)) req2) in
  sent (events r) = [req1; req2]
  /\ Chat.messages (state r)
     = (Chat.messages s
        ++ [Chat.mkMessage Chat.user (Some (Chat.input s)) None; reply_of o1;
            Chat.mkMessage Chat.user (Some second) None; reply_of o2])%list.
Proof.
  intros Hi Hsecond Hu r req1 req2 o1 o2. subst r req1 req2 o1 o2.
  destruct (serve b (turn s)) as [o1 b1] eqn:H1.
  rewrite (seq_run B Chat.State _ _ s b _ _ _ _
             (handleSend_settled B serve s b o1 b1 Hi Hu H1)).
  match goal with
  | |- context [(?h ;; Chat.handleSend serve)%monad ?s1 b1] =>
      rewrite (seq_run B Chat.State h (Chat.handleSend serve) s1 b1
                 (Chat.setInput second s1) b1 [] [] eq_refl)
  end.
  cbn [fst snd].
  destruct (serve b1 (PostAgentChat (Chat.userId s) (Chat.userId s) second
                                    (Chat.selectedCollection s)))
    as [o2 b2] eqn:H2.
  match goal with
  | |- context [Chat.handleSend serve ?s2 b1] =>
      rewrite (handleSend_settled B serve s2 b1 o2 b2 Hsecond Hu H2)
  end.
  cbn [events state fst]. rewrite !sent_app.
  split.
  - destruct o1, o2; reflexivity.
  - cbn. rewrite <- app_assoc. reflexivity.
Qed.

Lemma handleSend_two_turns_witness :
  let s := Fixtures.chat "What is a pole?" None in
  let body := ChatBody (Some "A root of the denominator.") None in
  let r :=
    (Chat.handleSend Scripted.serve ;;
     ChatPage.onInputChange (list Outcome) "And a zero?" ;;
     Chat.handleSend Scripted.serve)%monad
      s [Resolved body; Rejected Fixtures.boom] in
  sent (events r)
  = [PostAgentChat Fixtures.uid Fixtures.uid "What is a pole?" None;
     PostAgentChat Fixtures.uid Fixtures.uid "And a zero?" None]
  /\ Chat.messages (state r)
     = [Fixtures.hello;
        Chat.mkMessage Chat.user (Some "What is a pole?") None;
        Chat.mkMessage Chat.assistant (Some "A root of the denominator.") None;
        Chat.mkMessage Chat.user (Some "And a zero?") None;
        Chat.failureNote].
Proof.
  intros s body.
  apply (handleSend_two_turns
           (list Outcome) Scripted.serve s
           [Resolved body; Rejected Fixtures.boom] "And a zero?");
    reflexivity.
Defined.

(** X19: choosing a collection in the context list changes nothing of
    the transcript, and the send that follows carries that collection's
    name as [db_name]; choosing "All Books" makes the next send carry
    [null]. *)
Theorem selectCollection_then_send
  (B : Type) (serve : B -> Request -> Outcome * B) s b col :
  Js.truthy (Js.trim (Chat.input s)) = true ->
  Js.truthy (Chat.userId s) = true ->
  Chat.messages (state (ChatPage.selectCollection B col s b))
  = Chat.messages s
  /\ sent (events ((ChatPage.selectCollection B col ;;
                    Chat.handleSend serve)%monad s b))
     = [PostAgentChat (Chat.userId s) (Chat.userId s) (Chat.input s)
                      (Some (col_name col))]
  /\ sent (events ((ChatPage.selectAllBooks B ;;
                    Chat.handleSend serve)%monad s b))
     = [PostAgentChat (Chat.userId s) (Chat.userId s) (Chat.input s) None].
Proof.
  intros Hi Hu. split; [reflexivity |]. split.
  - rewrite (seq_run B Chat.State _ _ s b
               (Chat.setSelectedCollection (Some (col_name col)) s) b [] []
               eq_refl).
    cbn [events app].
    exact (handleSend_requests B serve
             (Chat.setSelectedCollection (Some (col_name col)) s) b Hi Hu).
  - rewrite (seq_run B Chat.State _ _ s b
               (Chat.setSelectedCollection None s) b [] [] eq_refl).
    cbn [events app].
    exact (handleSend_requests B serve
             (Chat.setSelectedCollection None s) b Hi Hu).
Qed.

Lemma selectCollection_then_send_witness :
  let s := Fixtures.chat "What is a pole?" None in
  Chat.messages (state (ChatPage.selectCollection (list Outcome)
                          Fixtures.algebra s [Rejected Fixtures.boom]))
  = [Fixtures.hello]
  /\ sent (events ((ChatPage.selectCollection (list Outcome) Fixtures.algebra ;;
                    Chat.handleSend Scripted.serve)%monad
                     s [Rejected Fixtures.boom]))
     = [PostAgentChat Fixtures.uid Fixtures.uid "What is a pole?"
                      (Some "algebra")]
  /\ sent (events ((ChatPage.selectAllBooks (list Outcome) ;;
                    Chat.handleSend Scripted.serve)%monad
                     s [Rejected Fixtures.boom]))
     = [PostAgentChat Fixtures.uid Fixtures.uid "What is a pole?" None].
Proof.
  intros s.
  apply (selectCollection_then_send
           (list Outcome) Scripted.serve s [Rejected Fixtures.boom]
           Fixtures.algebra);
    reflexivity.
Defined.

(** X20: loading the collections of the context list never throws.  If
    the listing resolves, the list becomes the [collections] of the
    body, or the empty list when the body has none; if it is rejected,
    the list stays and the failure is only logged.  The transcript, the
    input and the selected collection are never touched. *)
Theorem loadCollections_effect
  (B : Type) (serve : B -> Request -> Outcome * B) s b :
  let r := ChatPage.loadCollections serve s b in
  completion r = Normal tt
  /\ sent (events r) = [GetCollections]
  /\ Chat.collections (state r)
     = match fst (serve b GetCollections) with
       | Resolved (CollectionsBody _ (Some cs)) => cs
       | Resolved _ => []
       | Rejected _ => Chat.collections s
       end
  /\ reported (events r)
     = match fst (serve b GetCollections) with
       | Resolved _ => []
       | Rejected e => [ConsoleError "Failed to load collections:" e]
       end
  /\ Chat.messages (state r) = Chat.messages s
  /\ Chat.input (state r) = Chat.input s
  /\ Chat.selectedCollection (state r) = Chat.selectedCollection s
  /\ Chat.userId (state r) = Chat.userId s.
Proof.
  intros r. subst r. unfold ChatPage.loadCollections. run_handler.
  destruct (serve b GetCollections) as [o b'] eqn:H. cbn.
  destruct o as [[| total [cs |] | rsp arts] | e]; repeat split.
Qed.

(** X21: when the user declines the dialog, the clear handler stops
    there: no request is issued and the transcript, with the rest of
    the state, is as it was. *)
Theorem handleClearSession_declined_is_noop
  (B : Type) (serve : B -> Request -> Outcome * B) (answer : string -> bool)
  s b :
  answer "Clear chat history?" = false ->
  let r := Chat.handleClearSession serve answer s b in
  sent (events r) = []
  /\ reported (events r) = []
  /\ state r = s
  /\ backend r = b.
Proof.
  intros Ha r. subst r.
  rewrite (handleClearSession_declined B serve answer s b Ha).
  repeat split.
Qed.

Lemma handleClearSession_declined_is_noop_witness :
  let decline := fun _ : string => false in
  let s := Fixtures.chat "half a question" (Some "physics") in
  let r := Chat.handleClearSession Scripted.serve decline s [Resolved Ack] in
  sent (events r) = []
  /\ reported (events r) = []
  /\ state r = s
  /\ backend r = [Resolved Ack].
Proof.
  intros decline s.
  apply (handleClearSession_declined_is_noop
           (list Outcome) Scripted.serve decline s [Resolved Ack]).
  reflexivity.
Defined.

(** X22: a confirmed clear issues exactly one request, the deletion of
    the session whose user and session identifiers are both the
    component's identity; unlike [handleSend] it does so whatever that
    identity is, the empty one included.  It completes normally and can
    change nothing but the transcript: the text being typed, the list of
    collections and the selected collection stay. *)
Theorem handleClearSession_confirmed
  (B : Type) (serve : B -> Request -> Outcome * B) (answer : string -> bool)
  s b :
  answer "Clear chat history?" = true ->
  let r := Chat.handleClearSession serve answer s b in
  sent (events r) = [DeleteAgentSession (Chat.userId s) (Chat.userId s)]
  /\ completion r = Normal tt
  /\ Chat.userId (state r) = Chat.userId s
  /\ Chat.input (state r) = Chat.input s
  /\ Chat.loading (state r) = Chat.loading s
  /\ Chat.collections (state r) = Chat.collections s
  /\ Chat.selectedCollection (state r) = Chat.selectedCollection s.
Proof.
  intros Ha r. subst r.
  destruct (serve b (DeleteAgentSession (Chat.userId s) (Chat.userId s)))
    as [o b1] eqn:H1.
  rewrite (handleClearSession_settled B serve answer s b b1 o Ha H1).
  destruct o; repeat split.
Qed.

Lemma handleClearSession_confirmed_witness :
  let s :=
    Chat.mkState useAuth.initialUserId [Fixtures.hello] "half a question"
                 true [Fixtures.physics] (Some "physics") in
  let r :=
    Chat.handleClearSession Scripted.serve Scripted.yes s [Resolved Ack] in
  sent (events r) = [DeleteAgentSession "" ""]
  /\ completion r = Normal tt
  /\ Chat.userId (state r) = ""
  /\ Chat.input (state r) = "half a question"
  /\ Chat.loading (state r) = true
  /\ Chat.collections (state r) = [Fixtures.physics]
  /\ Chat.selectedCollection (state r) = Some "physics".
Proof.
  intros s.
  apply (handleClearSession_confirmed
           (list Outcome) Scripted.serve Scripted.yes s [Resolved Ack]).
  reflexivity.
Defined.

(** X23: a send followed by a confirmed clear: the clear deletes the
    very session the send wrote to (same user, same session
    identifier), and if that deletion resolves the transcript is empty,
    the turn just made included. *)
Theorem handleSend_then_clear
  (B : Type) (serve : B -> Request -> Outcome * B) (answer : string -> bool)
  s b :
  Js.truthy (Js.trim (Chat.input s)) = true ->
  Js.truthy (Chat.userId s) = true ->
  answer "Clear chat history?" = true ->
  let r :=
    (Chat.handleSend serve ;; Chat.handleClearSession serve answer)%monad
      s b in
  sent (events r)
  = [PostAgentChat (Chat.userId s) (Chat.userId s) (Chat.input s)
                   (Chat.selectedCollection s);
     DeleteAgentSession (Chat.userId s) (Chat.userId s)]
  /\ ((exists d,
         In (Settled (DeleteAgentSession (Chat.userId s) (Chat.userId s))
                     (Resolved d)) (events r)) ->
      Chat.messages (state r) = []).
Proof.
  intros Hi Hu Ha r. subst r.
  destruct (serve b (turn s)) as [o b1] eqn:H1.
  rewrite (seq_run B Chat.State _ _ s b _ _ _ _
             (handleSend_settled B serve s b o b1 Hi Hu H1)).
  match goal with
  | |- context [Chat.handleClearSession serve answer ?s1 b1] =>
      destruct (serve b1 (DeleteAgentSession (Chat.userId s1) (Chat.userId s1)))
        as [o2 b2] eqn:H2;
      rewrite (handleClearSession_settled B serve answer s1 b1 b2 o2 Ha H2)
  end.
  cbn [events state]. rewrite sent_app. split.
  - destruct o, o2; reflexivity.
  - intros [d Hin]. destruct o2 as [d2 | e2]; [reflexivity |].
    exfalso. apply in_app_or in Hin. destruct Hin as [Hin | Hin].
    + unfold turn in Hin. cbn in Hin. destruct o;
        repeat (destruct Hin as [Hin | Hin]; [discriminate Hin |]);
        contradiction.
    + cbn in Hin.
      repeat (destruct Hin as [Hin | Hin]; [discriminate Hin |]).
      contradiction.
Qed.

Lemma handleSend_then_clear_witness :
  let s := Fixtures.chat "What is a pole?" None in
  let r :=
    (Chat.handleSend Scripted.serve ;;
     Chat.handleClearSession Scripted.serve Scripted.yes)%monad
      s [Rejected Fixtures.boom; Resolved Ack] in
  sent (events r)
  = [PostAgentChat Fixtures.uid Fixtures.uid "What is a pole?" None;
     DeleteAgentSession Fixtures.uid Fixtures.uid]
  /\ Chat.messages (state r) = [].
Proof.
  intros s.
  destruct (handleSend_then_clear
              (list Outcome) Scripted.serve Scripted.yes s
              [Rejected Fixtures.boom; Resolved Ack]
              eq_refl eq_refl eq_refl) as [Hsent Hclear].
  split; [exact Hsent |].
  apply Hclear. exists Ack. cbn. do 6 right. left. reflexivity.
Defined.

(** ** Identity *)

Lemma getItem_removeItem_other (k key : string) (st : LocalStorage.Storage) :
  k <> key ->
  LocalStorage.getItem k (LocalStorage.removeItem key st)
  = LocalStorage.getItem k st.
Proof.
  intros Hne. induction st as [| [k' v'] st IH]; [reflexivity |].
  cbn [LocalStorage.removeItem LocalStorage.getItem].
  destruct (String.eqb_spec k' key) as [-> | Hk'].
  - rewrite IH. destruct (String.eqb_spec key k) as [E | _].
    + symmetry in E. contradiction.
    + reflexivity.
  - cbn [LocalStorage.getItem]. rewrite IH. reflexivity.
Qed.

Lemma getItem_setItem (k key v : string) (st : LocalStorage.Storage) :
  LocalStorage.getItem k (LocalStorage.setItem key v st)
  = if (key =? k) then Some v else LocalStorage.getItem k st.
Proof.
  unfold LocalStorage.setItem. cbn [LocalStorage.getItem].
  destruct (String.eqb_spec key k) as [E | Hne]; [reflexivity |].
  apply getItem_removeItem_other. intros E. apply Hne. symmetry. exact E.
Qed.

(** What the effect yields and stores. *)
Lemma effect_yields (digits : string) (st : LocalStorage.Storage) :
  let id := fst (Identity.effect digits st) in
  let st' := snd (Identity.effect digits st) in
  Js.truthy id = true
  /\ LocalStorage.getItem "user_id" st' = Some id
  /\ (forall k, k <> "user_id" ->
                LocalStorage.getItem k st' = LocalStorage.getItem k st).
Proof.
  unfold Identity.effect.
  assert (Hother : forall id k,
             k <> "user_id" ->
             LocalStorage.getItem k (LocalStorage.setItem "user_id" id st)
             = LocalStorage.getItem k st).
  { intros id k Hk. rewrite getItem_setItem.
    destruct (String.eqb_spec "user_id" k) as [E | _];
      [symmetry in E; contradiction | reflexivity]. }
  destruct (LocalStorage.getItem "user_id" st) as [v |] eqn:Hget.
  - destruct (Js.truthy v) eqn:Hv; cbn [fst snd].
    + split; [exact Hv |]. split; [exact Hget | reflexivity].
    + split; [reflexivity |]. split; [| apply Hother].
      rewrite getItem_setItem. reflexivity.
  - cbn [fst snd]. split; [reflexivity |]. split; [| apply Hother].
    rewrite getItem_setItem. reflexivity.
Qed.

(** X24: whatever the storage holds and whatever the random draw, the
    effect of [useAuth] yields an identity that is not empty, leaves it
    stored under [user_id], and touches no other item of the storage. *)
Theorem Identity_effect_usable (digits : string) (st : LocalStorage.Storage) :
  let id := fst (Identity.effect digits st) in
  let st' := snd (Identity.effect digits st) in
  Js.truthy id = true
  /\ LocalStorage.getItem "user_id" st' = Some id
  /\ (forall k, k <> "user_id" ->
                LocalStorage.getItem k st' = LocalStorage.getItem k st).
Proof.
  exact (effect_yields digits st).
Qed.

Lemma Identity_effect_usable_witness :
  let st := [("theme", "dark"); ("user_id", "")] in
  let id := fst (Identity.effect "k3j9x2m1q" st) in
  let st' := snd (Identity.effect "k3j9x2m1q" st) in
  id = "user_k3j9x2m1q"
  /\ Js.truthy id = true
  /\ LocalStorage.getItem "user_id" st' = Some id
  /\ LocalStorage.getItem "theme" st' = Some "dark".
Proof.
  intros st id st'.
  destruct (Identity_effect_usable "k3j9x2m1q" st) as (Hid & Hstored & Hother).
  split; [reflexivity |]. split; [exact Hid |]. split; [exact Hstored |].
  transitivity (LocalStorage.getItem "theme" st);
    [apply Hother; discriminate | reflexivity].
Defined.

(** X25: the identity is stable: once the effect has run, running it
    again, with any other random draw, yields the same identity and
    leaves the storage as it is. *)
Theorem Identity_effect_stable
  (digits again : string) (st : LocalStorage.Storage) :
  Identity.effect again (snd (Identity.effect digits st))
  = (fst (Identity.effect digits st), snd (Identity.effect digits st)).
Proof.
  destruct (effect_yields digits st) as (Hid & Hstored & _).
  unfold Identity.effect at 1. rewrite Hstored, Hid. reflexivity.
Qed.

(** X26: once the effect of [useAuth] has run, the identity guard of
    neither page stops a handler: a send goes out unless the input is
    white space only, and an upload goes out whenever a file is
    selected. *)
Theorem handlers_after_identity
  (B : Type) (serve : B -> Request -> Outcome * B)
  (digits : string) (st : LocalStorage.Storage) cs hs b file :
  Chat.userId cs = fst (Identity.effect digits st) ->
  Home.userId hs = fst (Identity.effect digits st) ->
  Home.selectedFile hs = Some file ->
  sent (events (Chat.handleSend serve cs b))
  = (if whitespace_only (Chat.input cs) then []
     else [PostAgentChat (Chat.userId cs) (Chat.userId cs) (Chat.input cs)
                         (Chat.selectedCollection cs)])
  /\ exists rest,
       sent (events (Home.handleUpload serve hs b))
       = PostPdfUpload file (Home.userId hs) :: rest.
Proof.
  intros Hc Hh Hf.
  destruct (effect_yields digits st) as (Hid & _).
  split.
  - rewrite handleSend_sends_when. rewrite Hc, Hid, orb_false_r.
    reflexivity.
  - apply handleUpload_sends_upload_first; [exact Hf |].
    rewrite Hh. exact Hid.
Qed.

Lemma handlers_after_identity_witness :
  let id := fst (Identity.effect "k3j9x2m1q" []) in
  let cs := Chat.mkState id [] "What is a pole?" false [] None in
  let hs := Home.mkState id [] false true false (Some Fixtures.physics_pdf) in
  id = "user_k3j9x2m1q"
  /\ sent (events (Chat.handleSend Scripted.serve cs [Rejected Fixtures.boom]))
     = [PostAgentChat id id "What is a pole?" None]
  /\ exists rest,
       sent (events (Home.handleUpload Scripted.serve hs
                       [Rejected Fixtures.boom]))
       = PostPdfUpload Fixtures.physics_pdf id :: rest.
Proof.
  intros id cs hs. split; [reflexivity |].
  apply (handlers_after_identity
           (list Outcome) Scripted.serve "k3j9x2m1q" [] cs hs
           [Rejected Fixtures.boom] Fixtures.physics_pdf);
    reflexivity.
Defined.
